(** * pybdist: generated documents and the googlecode artifact reconciler

    A shallow embedding of [src/pybdist/util.py], [src/pybdist/documents.py]
    and [src/pybdist/googlecode_update.py].

    Conventions of the embedding.
    - Python [str] values are [string]s of ASCII characters, and so are
      [bytes] values; the two are told apart where the code hands one to a
      call that takes the other ([data]).  A text file holds the bytes of
      the text written to it, so reading and writing are the identity.
    - Everything outside the three modules is the environment: the network,
      the operator at the terminal, the clock, the translation catalogues,
      the package index, [textwrap], [hashlib] and the upload helper.  It is
      a record [Env] of functions; those that talk to the outside world take
      the trace of what has happened so far, so that they may answer
      differently every time.
    - The file system is the mutable state; the catalogue behind the
      module-level translation function [_] is part of the world as well.
      Code runs in the monad [M]: a world goes in, an outcome (a value, a
      raised exception or [sys.exit]) and the new world come out.
    - Library calls have the meaning Python 3 gives them, also where the
      modules were written against another one: [file] is not a built-in
      name, so calling it raises [NameError]; [rot13] is not a text encoding,
      so [str.encode('rot13')] raises [LookupError]; [install] of a
      translation takes no argument [str], so [gtext.install(str=True)]
      raises [TypeError]; and a pattern that is a [str] raises [TypeError]
      on [bytes].  What [read()] of a response gives is the environment's to
      say: [bytes] with [urllib], a [str] with a response that reads as
      text. *)

From Stdlib Require Import Ascii String ZArith DecimalString.
From stdpp Require Import base option list strings gmap.

Local Open Scope Z_scope.
Local Open Scope char_scope.
Local Open Scope stdpp_scope.

(** ** Python strings *)
Module Py.

Definition NL : ascii := "010".
Definition DQ : ascii := "034".

Definition is_upper (c : ascii) : bool :=
  (65 <=? nat_of_ascii c)%nat && (nat_of_ascii c <=? 90)%nat.
Definition is_lower (c : ascii) : bool :=
  (97 <=? nat_of_ascii c)%nat && (nat_of_ascii c <=? 122)%nat.
Definition lower_char (c : ascii) : ascii :=
  if is_upper c then ascii_of_nat (nat_of_ascii c + 32) else c.
Definition upper_char (c : ascii) : ascii :=
  if is_lower c then ascii_of_nat (nat_of_ascii c - 32) else c.

Fixpoint smap (f : ascii → ascii) (s : string) : string :=
  match s with
  | EmptyString => EmptyString
  | String c s' => String (f c) (smap f s')
  end.

(** [s.lower()] *)
Definition lower : string → string := smap lower_char.

(** [s.capitalize()] *)
Definition capitalize (s : string) : string :=
  match s with
  | EmptyString => EmptyString
  | String c s' => String (upper_char c) (lower s')
  end.

(** [s.startswith(p)] *)
Fixpoint startswith (p s : string) : bool :=
  match p, s with
  | EmptyString, _ => true
  | String a p', String b s' => Ascii.eqb a b && startswith p' s'
  | String _ _, EmptyString => false
  end.

(** [needle in hay] *)
Fixpoint contains (needle hay : string) : bool :=
  startswith needle hay ||
  match hay with
  | EmptyString => false
  | String _ hay' => contains needle hay'
  end.

(** [s.endswith(p)] *)
Fixpoint endswith (p s : string) : bool :=
  String.eqb p s ||
  match s with
  | EmptyString => false
  | String _ s' => endswith p s'
  end.

(** [s.split(sep)] for a one-character separator. *)
Fixpoint split_go (sep : ascii) (cur : string) (s : string) : list string :=
  match s with
  | EmptyString => [String.rev cur]
  | String c s' =>
      if Ascii.eqb c sep then String.rev cur :: split_go sep EmptyString s'
      else split_go sep (String c cur) s'
  end.
Definition split (sep : ascii) (s : string) : list string :=
  split_go sep EmptyString s.

(** [sep.join(l)] *)
Fixpoint join (sep : string) (l : list string) : string :=
  match l with
  | [] => EmptyString
  | [x] => x
  | x :: l' => x +:+ sep +:+ join sep l'
  end.

(** [s.strip()] *)
Fixpoint lstrip (s : string) : string :=
  match s with
  | String c s' => if Ascii.is_space c then lstrip s' else s
  | EmptyString => EmptyString
  end.
Definition strip (s : string) : string :=
  String.rev (lstrip (String.rev (lstrip s))).

(** [c * n] *)
Fixpoint times (c : ascii) (n : nat) : string :=
  match n with
  | O => EmptyString
  | S n' => String c (times c n')
  end.

(** ['%-*s' % (width, s)]: [s] padded with blanks on the right. *)
Definition ljust (width : nat) (s : string) : string :=
  s +:+ times " " (width - String.length s).

(** The first [n] characters: [s[:n]]. *)
Fixpoint take (n : nat) (s : string) : string :=
  match n, s with
  | S n', String c s' => String c (take n' s')
  | _, _ => EmptyString
  end.

(** ROT13, the form in which the license texts that come with the module
    are stored. *)
Definition rot13_char (c : ascii) : ascii :=
  let n := nat_of_ascii c in
  if is_upper c then ascii_of_nat (65 + (n - 65 + 13) mod 26)
  else if is_lower c then ascii_of_nat (97 + (n - 97 + 13) mod 26)
  else c.
Definition rot13 : string → string := smap rot13_char.

(** [fmt % arg] for one string argument.  [%s] takes the argument and [%%]
    is a percent sign; formatting raises [TypeError] ([None] here) when the
    format has no [%s], has a second one, or uses a conversion that does
    not take a string. *)
Fixpoint format_go (fmt : string) (arg : option string) : option string :=
  match fmt with
  | EmptyString => match arg with None => Some EmptyString | Some _ => None end
  | String c fmt1 =>
      if Ascii.eqb c "%" then
        match fmt1 with
        | String d fmt2 =>
            if Ascii.eqb d "s" then
              match arg with
              | Some a => (λ r, a +:+ r) <$> format_go fmt2 None
              | None => None
              end
            else if Ascii.eqb d "%" then String "%" <$> format_go fmt2 arg
            else None
        | EmptyString => None
        end
      else String c <$> format_go fmt1 arg
  end.
Definition format (fmt arg : string) : option string := format_go fmt (Some arg).

(** [str(n)] of a number that is not negative *)
Definition str_of_nat (n : nat) : string :=
  NilEmpty.string_of_uint (Nat.to_uint n).

(** [int(s, 10)]: blanks around an optionally signed run of decimal digits,
    in which single underscores may stand between two digits
    ([ValueError], here [None], otherwise); the strings are ASCII, so the
    decimal digits are [0] to [9].  [after_digit] tells whether the
    character before was a digit. *)
Fixpoint digits_go (s : string) (after_digit : bool) (acc : Z) : option Z :=
  match s with
  | EmptyString => if after_digit then Some acc else None
  | String c s' =>
      match Ascii.is_nat c with
      | Some d => digits_go s' true (10 * acc + Z.of_nat d)
      | None =>
          if Ascii.eqb c "_" && after_digit then digits_go s' false acc
          else None
      end
  end.
Definition digits (s : string) : option Z := digits_go s false 0.
Definition int (s : string) : option Z :=
  match strip s with
  | String "-" s' => Z.opp <$> digits s'
  | String "+" s' => digits s'
  | s' => digits s'
  end.

End Py.

(** ** Regular expressions

    The part of Python's [re] that the modules' patterns use: literal
    characters, backslash escapes ([\s] and escaped punctuation), [.],
    bracket classes, one capturing group, and the quantifiers [*], [+] and
    [+?] on a single character; [search] and [finditer] only.  Matching is by backtracking, in [re]'s
    order of preference: leftmost start, greedy quantifiers longest first,
    the lazy one shortest first. *)
Module Re.

Inductive cset :=
  | CAny
  | CLit (c : ascii)
  | CSpace
  | CIn (negated : bool) (cs : list ascii).

Inductive quant := QOne | QStar | QPlus | QLazyPlus.

Inductive item :=
  | Atom (c : cset) (q : quant)
  | GOpen
  | GClose.

Definition regex := list item.

Record flags := { IGNORECASE : bool; DOTALL : bool }.
Definition no_flags := {| IGNORECASE := false; DOTALL := false |}.
Definition dotall := {| IGNORECASE := false; DOTALL := true |}.
Definition ignorecase := {| IGNORECASE := true; DOTALL := false |}.

(** *** Reading a pattern *)

Definition escaped (c : ascii) : cset :=
  if Ascii.eqb c "s" then CSpace else CLit c.

(** A quantifier character changes the atom before it. *)
Definition requant (c : ascii) (acc : list item) : option (list item) :=
  match acc with
  | Atom a QOne :: acc' =>
      if Ascii.eqb c "*" then Some (Atom a QStar :: acc')
      else if Ascii.eqb c "+" then Some (Atom a QPlus :: acc')
      else None
  | Atom a QPlus :: acc' =>
      if Ascii.eqb c "?" then Some (Atom a QLazyPlus :: acc') else None
  | _ => None
  end.

Fixpoint compile_go (p : string) (cls : option (bool * list ascii))
    (acc : list item) : regex :=
  match p with
  | EmptyString => rev acc
  | String c p1 =>
      match cls with
      | Some (neg, cs) =>
          if Ascii.eqb c "]"
          then compile_go p1 None (Atom (CIn neg (rev cs)) QOne :: acc)
          else compile_go p1 (Some (neg, c :: cs)) acc
      | None =>
          if Ascii.eqb c "\" then
            match p1 with
            | String d p2 => compile_go p2 None (Atom (escaped d) QOne :: acc)
            | EmptyString => rev acc
            end
          else if Ascii.eqb c "[" then
            match p1 with
            | String d p2 =>
                if Ascii.eqb d "^" then compile_go p2 (Some (true, [])) acc
                else compile_go p1 (Some (false, [])) acc
            | EmptyString => rev acc
            end
          else if Ascii.eqb c "(" then compile_go p1 None (GOpen :: acc)
          else if Ascii.eqb c ")" then compile_go p1 None (GClose :: acc)
          else if Ascii.eqb c "." then compile_go p1 None (Atom CAny QOne :: acc)
          else
            match requant c acc with
            | Some acc' => compile_go p1 None acc'
            | None => compile_go p1 None (Atom (CLit c) QOne :: acc)
            end
      end
  end.

(** [re.compile(pattern)] *)
Definition compile (pattern : string) : regex := compile_go pattern None [].

(** *** Matching *)

Definition ceq (fl : flags) (a c : ascii) : bool :=
  if IGNORECASE fl then Ascii.eqb (Py.lower_char a) (Py.lower_char c)
  else Ascii.eqb a c.

Definition cmatch (fl : flags) (cs : cset) (c : ascii) : bool :=
  match cs with
  | CAny => DOTALL fl || negb (Ascii.eqb c Py.NL)
  | CLit a => ceq fl a c
  | CSpace => Ascii.is_space c
  | CIn neg l => xorb neg (existsb (λ a, ceq fl a c) l)
  end.

Section Backtrack.
Context {R : Type}.
Variable ok : ascii → bool.
Variable k : string → option R.

Definition once (s : string) : option R :=
  match s with
  | String c s' => if ok c then k s' else None
  | EmptyString => None
  end.

(** Zero or more, as many as possible first. *)
Fixpoint greedy (s : string) : option R :=
  match s with
  | String c s' =>
      if ok c then
        match greedy s' with
        | Some r => Some r
        | None => k s
        end
      else k s
  | EmptyString => k s
  end.

(** Zero or more, as few as possible first. *)
Fixpoint nongreedy (s : string) : option R :=
  match k s with
  | Some r => Some r
  | None =>
      match s with
      | String c s' => if ok c then nongreedy s' else None
      | EmptyString => None
      end
  end.
End Backtrack.

(** The text of the group opened at [g] and closed at [s]. *)
Definition close_group (g cap : option string) (s : string) : option string :=
  match g with
  | Some s0 => Some (Py.take (String.length s0 - String.length s) s0)
  | None => cap
  end.

(** Match [re] at the start of [s]: the text of group 1 (when the group took
    part) and what is left of [s] after the match. *)
Fixpoint match_here (fl : flags) (re : regex) (g cap : option string)
    (s : string) : option (option string * string) :=
  match re with
  | [] => Some (cap, s)
  | GOpen :: re' => match_here fl re' (Some s) cap s
  | GClose :: re' => match_here fl re' g (close_group g cap s) s
  | Atom cs q :: re' =>
      let k := match_here fl re' g cap in
      let ok := cmatch fl cs in
      match q with
      | QOne => once ok k s
      | QStar => greedy ok k s
      | QPlus => once ok (greedy ok k) s
      | QLazyPlus => once ok (nongreedy ok k) s
      end
  end.

(** A match object: [m.group(1)] and the length of [m.group(0)]. *)
Record match_obj := { group1 : option string; m_len : nat }.

Definition match_at (fl : flags) (re : regex) (s : string) : option match_obj :=
  match match_here fl re None None s with
  | Some (cap, rest) =>
      Some {| group1 := cap; m_len := String.length s - String.length rest |}
  | None => None
  end.

(** [re.search]: the match at the leftmost position that has one. *)
Fixpoint search_re (fl : flags) (re : regex) (s : string) : option match_obj :=
  match match_at fl re s with
  | Some m => Some m
  | None =>
      match s with
      | String _ s' => search_re fl re s'
      | EmptyString => None
      end
  end.

Definition search (pattern text : string) (fl : flags) : option match_obj :=
  search_re fl (compile pattern) text.

(** [re.finditer]: the matches from left to right, none overlapping;
    [skip] characters of the last match are still to be passed over. *)
Fixpoint finditer_go (fl : flags) (re : regex) (skip : nat) (s : string)
    : list match_obj :=
  match skip with
  | S n =>
      match s with
      | String _ s' => finditer_go fl re n s'
      | EmptyString => []
      end
  | O =>
      match match_at fl re s with
      | Some m =>
          m :: match s with
               | String _ s' => finditer_go fl re (pred (m_len m)) s'
               | EmptyString => []
               end
      | None =>
          match s with
          | String _ s' => finditer_go fl re O s'
          | EmptyString => []
          end
      end
  end.

Definition finditer (pattern text : string) (fl : flags) : list match_obj :=
  finditer_go fl (compile pattern) O text.

End Re.

(** ** The world the programs run in *)

(** A Python value that is printed or tested for truth. *)
Inductive pyval :=
  | VNone
  | VStr (s : string)
  | VInt (z : Z)
  | VList (l : list string).

Definition of_opt (o : option string) : pyval :=
  match o with
  | Some s => VStr s
  | None => VNone
  end.

(** [bool(v)] *)
Definition truthy (v : pyval) : bool :=
  match v with
  | VNone => false
  | VStr s => negb (String.eqb s EmptyString)
  | VInt z => negb (Z.eqb z 0)
  | VList l => negb (bool_decide (l = []))
  end.

(** A piece of an f-string or of a log message: literal text, [{v}] or
    [{v!r}]. *)
Inductive frag :=
  | Txt (s : string)
  | Str (v : pyval)
  | Repr (v : pyval).

(** The arguments of [googlecode_upload.upload]. *)
Record upload_args := {
  up_file : string;
  up_project_name : string;
  up_user_name : string;
  up_password : string;
  up_summary : option string;
  up_labels : list string;
}.

(** What the program does to the outside, in order. *)
Inductive event :=
  | EvPrint (msg : list frag)
  | EvLog (msg : list frag)
  | EvUrlopen (url : string)
  | EvUpload (args : upload_args)
  | EvInput (prompt : list frag)
  | EvWrite (path : string)
  | EvMakedirs (path : string)
  | EvRename (src dst : string)
  | EvUnlink (path : string).

Inductive exn :=
  | UnboundLocalError (name : string)
  | NameError (name : string)
  | TypeError
  | ValueError
  | LookupError
  | ReError
  | URLError
  | HTTPError
  | OSError (path : string)
  | DocumentsException (msg : list frag).

(** [urllib.error.HTTPError] is a subclass of [URLError]. *)
Definition is_URLError (e : exn) : bool :=
  match e with
  | URLError | HTTPError => true
  | _ => false
  end.
Definition is_HTTPError (e : exn) : bool :=
  match e with
  | HTTPError => true
  | _ => false
  end.

Inductive outcome (A : Type) :=
  | Ok (a : A)
  | Raise (e : exn)
  | Exit (status : Z).
Arguments Ok {A} a.
Arguments Raise {A} e.
Arguments Exit {A} status.

Inductive http_answer :=
  | Body (text : string)
  | HttpFails
  | UrlFails.

(** What a call may be handed where the code expects a [str]. *)
Inductive data :=
  | Text (s : string)
  | Bytes (b : string).

(** A translation catalogue is named by what [gettext.translation] is
    given. *)
Record catalogue := {
  domain : string;
  localedir : string;
  language : string;
}.

Record Env := {
  (** [urllib.request.urlopen(url)]: the body of the response, or the
      exception *)
  urlopen_answer : list event → string → http_answer;
  (** whether [read()] of a response gives a [str], as the modules expect;
      with [urllib] it gives [bytes] *)
  urlopen_gives_str : bool;
  (** what [googlecode_upload.upload] returns: status, reason and URL *)
  upload_answer : list event → upload_args → Z * string * option string;
  (** [input(prompt)] *)
  input_answer : list event → string;
  (** [hashlib.sha1(data).hexdigest()] *)
  sha1_hexdigest : string → string;
  (** the year of [time.localtime()] *)
  strftime_Y : list event → nat;
  (** [re.compile(pattern, re.DOTALL).sub(repl, text)] on a [str]: the
      text with the matches replaced by the expansion of the template
      [repl], [re.error] ([None]) for a template that is not well formed *)
  re_sub : string → string → string → option string;
  (** [gettext]: the catalogue's translation of a message, the message
      itself when it has none. *)
  ugettext : catalogue → string → string;
  (** [apt.Cache()[name]]: summary and homepage of a known package. *)
  apt_cache : string → option (string * string);
  (** [textwrap.wrap(text, width)] *)
  textwrap_wrap : string → nat → list string;
  (** [tempfile.gettempdir()] *)
  gettempdir : string;
  (** [os.getcwd()] *)
  getcwd : string;
  (** [os.path.dirname(__file__)] of [documents.py] *)
  module_dir : string;
}.

Record World := {
  (** regular files by absolute path, with their content *)
  files : gmap string string;
  (** directories by absolute path *)
  dirs : gset string;
  (** the catalogue behind the module-level function [_] *)
  underscore : catalogue;
  trace : list event;
}.

Definition set_files (f : gmap string string → gmap string string) (w : World) : World :=
  {| files := f (files w); dirs := dirs w; underscore := underscore w;
     trace := trace w |}.
Definition set_dirs (f : gset string → gset string) (w : World) : World :=
  {| files := files w; dirs := f (dirs w); underscore := underscore w;
     trace := trace w |}.
Definition record (e : event) (w : World) : World :=
  {| files := files w; dirs := dirs w; underscore := underscore w;
     trace := trace w ++ [e] |}.

(** *** The monad *)

Definition M (A : Type) : Type := World → outcome A * World.

#[global] Instance M_ret : MRet M := λ A a w, (Ok a, w).
#[global] Instance M_bind : MBind M := λ A B f m w,
  match m w with
  | (Ok a, w') => f a w'
  | (Raise e, w') => (Raise e, w')
  | (Exit n, w') => (Exit n, w')
  end.

#[global] Instance M_fmap : FMap M := λ A B f m w,
  match m w with
  | (Ok a, w') => (Ok (f a), w')
  | (Raise e, w') => (Raise e, w')
  | (Exit n, w') => (Exit n, w')
  end.

Notation "m ;; k" := (mbind (λ _ : unit, k) m)
  (at level 100, k at level 200, right associativity) : stdpp_scope.

Definition raise {A} (e : exn) : M A := λ w, (Raise e, w).
Definition sys_exit {A} (n : Z) : M A := λ w, (Exit n, w).
Definition emit (e : event) : M unit := λ w, (Ok tt, record e w).
Definition print (msg : list frag) : M unit := emit (EvPrint msg).
Definition LOG_info (msg : list frag) : M unit := emit (EvLog msg).

(** [try: m  except <handled>: h] *)
Definition try_except {A} (m : M A) (handled : exn → bool) (h : M A) : M A :=
  λ w, match m w with
       | (Raise e, w') => if handled e then h w' else (Raise e, w')
       | r => r
       end.

(** [for x in l: body(x)] *)
Fixpoint for_each {A} (l : list A) (body : A → M unit) : M unit :=
  match l with
  | [] => mret tt
  | x :: l' => body x;; for_each l' body
  end.

(** ** [os.path] on strings *)
Module Path.

(** [os.path.join(a, b)] *)
Definition join (a b : string) : string :=
  if Py.startswith "/" b then b
  else if String.eqb a EmptyString || Py.endswith "/" a then a +:+ b
  else a +:+ "/" +:+ b.

(** [os.path.basename(p)]: what follows the last slash. *)
Definition basename (p : string) : string :=
  default EmptyString (last (Py.split "/" p)).

(** One step of [os.path.normpath] over the components read so far (last
    one first). *)
Definition norm_step (seen : list string) (c : string) : list string :=
  if String.eqb c EmptyString || String.eqb c "." then seen
  else if String.eqb c ".." then
    match seen with
    | [] => []
    | _ :: seen' => seen'
    end
  else c :: seen.

(** [os.path.normpath(p)] for an absolute path. *)
Definition normpath (p : string) : string :=
  String "/" (Py.join "/" (rev (foldl norm_step [] (Py.split "/" p)))).

End Path.

(** ** [os], [open] and the other calls that touch the outside *)
Module Os.
Section WithEnv.
Variable env : Env.

(** [os.path.abspath(p)]; files are looked up under their absolute path. *)
Definition abspath (p : string) : string :=
  Path.normpath (Path.join (getcwd env) p).

Definition is_file (p : string) (w : World) : bool :=
  bool_decide (is_Some (files w !! abspath p)).
Definition is_dir (p : string) (w : World) : bool :=
  bool_decide (abspath p ∈ dirs w).

(** [os.path.exists(p)] *)
Definition path_exists (p : string) : M bool :=
  λ w, (Ok (is_file p w || is_dir p w), w).

(** [os.path.isdir(p)] *)
Definition path_isdir (p : string) : M bool :=
  λ w, (Ok (is_dir p w), w).

(** [os.makedirs(p)] *)
Definition makedirs (p : string) : M unit :=
  λ w, if is_file p w || is_dir p w then (Raise (OSError (abspath p)), w)
       else (Ok tt, record (EvMakedirs (abspath p))
                      (set_dirs (λ d, {[abspath p]} ∪ d) w)).

(** [open(p).read()] *)
Definition read (p : string) : M string :=
  λ w, match files w !! abspath p with
       | Some text => (Ok text, w)
       | None => (Raise (OSError (abspath p)), w)
       end.

(** [f = open(p, 'w'); f.write(text); f.close()] *)
Definition write (p text : string) : M unit :=
  λ w, if is_dir p w then (Raise (OSError (abspath p)), w)
       else (Ok tt, record (EvWrite (abspath p))
                      (set_files (insert (abspath p) text) w)).

(** [os.rename(src, dst)] of a regular file *)
Definition rename (src dst : string) : M unit :=
  λ w, match files w !! abspath src with
       | Some text =>
           if is_dir dst w then (Raise (OSError (abspath dst)), w)
           else (Ok tt, record (EvRename (abspath src) (abspath dst))
                          (set_files (λ f, <[abspath dst := text]> (delete (abspath src) f)) w))
       | None => (Raise (OSError (abspath src)), w)
       end.

(** [os.unlink(p)] *)
Definition unlink (p : string) : M unit :=
  λ w, if is_file p w
       then (Ok tt, record (EvUnlink (abspath p)) (set_files (delete (abspath p)) w))
       else (Raise (OSError (abspath p)), w).

(** The name of [p] inside the directory [d], when [p] is directly in it. *)
Definition child_of (d p : string) : option string :=
  let pre := if String.eqb d "/" then d else d +:+ "/" in
  if Py.startswith pre p then
    let name := String.substring (String.length pre) (String.length p) p in
    if String.eqb name EmptyString || Py.contains "/" name then None else Some name
  else None.

(** [os.listdir(d)], in the order the file system gives the names. *)
Definition listdir (d : string) : M (list string) :=
  λ w, (Ok (omap (child_of (abspath d))
              ((map_to_list (files w)).*1 ++ elements (dirs w))), w).

(** [filecmp.cmp(a, b)]: both regular files and equal in content. *)
Definition filecmp_cmp (a b : string) : M bool :=
  λ w, match files w !! abspath a, files w !! abspath b with
       | Some x, Some y => (Ok (String.eqb x y), w)
       | Some _, None => if is_dir b w then (Ok false, w) else (Raise (OSError (abspath b)), w)
       | None, _ => if is_dir a w then (Ok false, w) else (Raise (OSError (abspath a)), w)
       end.

(** [input(prompt)] *)
Definition input (prompt : list frag) : M string :=
  λ w, (Ok (input_answer env (trace w)), record (EvInput prompt) w).

(** [urllib.request.urlopen(url).read()] *)
Definition urlopen_read (url : string) : M data :=
  λ w, match urlopen_answer env (trace w) url with
       | Body text => (Ok (if urlopen_gives_str env then Text text else Bytes text),
                       record (EvUrlopen url) w)
       | HttpFails => (Raise HTTPError, record (EvUrlopen url) w)
       | UrlFails => (Raise URLError, record (EvUrlopen url) w)
       end.

(** Modelled from the spec: [googlecode_upload.upload], a module of the
    package that is not among the sources.  The upload call is an exchange
    with the hosting service; it reports a status code, a reason string and
    the resulting URL, which is missing when the upload failed, and it
    leaves the local files alone. *)
Definition upload (args : upload_args) : M (Z * string * option string) :=
  λ w, (Ok (upload_answer env (trace w) args), record (EvUpload args) w).

(** [time.strftime('%Y', time.localtime())] *)
Definition year : M string :=
  λ w, (Ok (Py.str_of_nat (strftime_Y env (trace w))), w).

(** [_(message)], the module-level translation function. *)
Definition gettext (message : string) : M string :=
  λ w, (Ok (ugettext env (underscore w) message), w).

(** [fmt % arg] *)
Definition format (fmt arg : string) : M string :=
  match Py.format fmt arg with
  | Some s => mret s
  | None => raise TypeError
  end.

End WithEnv.
End Os.

(** ** [util.py] *)
Module Util.

Definition MAGIC_NAME : string := "`pybdist`".

(** The lines of a text file, as [for line in open(fname)] gives them (the
    line ends left out). *)
Definition file_lines (text : string) : list string := Py.split Py.NL text.

(** [for line in open(fname): if MAGIC_NAME in line: ... break] *)
Definition has_magic (text : string) : bool :=
  existsb (Py.contains MAGIC_NAME) (file_lines text).

Section WithEnv.
Variable env : Env.

Definition tmpdir : string := Path.join (gettempdir env) "pybdist".
Definition out_tempname : string := Path.join tmpdir "tmp.tmp".

(** Lines 79 to 85: the old file goes to the backup place, the candidate
    takes its name. *)
Definition replace_file (fname : string) : M unit :=
  let backup_name := Path.join tmpdir (Path.basename fname) in
  there ← Os.path_exists env fname;
  (if there : bool then
     LOG_info [Txt "backup stored at "; Repr (VStr backup_name)];;
     Os.rename env fname backup_name
   else mret tt);;
  Os.rename env out_tempname fname;;
  LOG_info [Txt "Wrote "; Repr (VStr fname)];;
  print [Txt "Updated "; Repr (VStr fname)].

Definition _safe_overwrite (lines : list string) (fname : string) : M unit :=
  there ← Os.path_exists env fname;
  can_overwrite ← (if there : bool then has_magic <$> Os.read env fname
                   else mret true);
  if negb can_overwrite then
    LOG_info [Repr (VStr fname);
              Txt " not overwritten because it's missing magic string ";
              Repr (VStr MAGIC_NAME)]
  else
    isdir ← Os.path_isdir env tmpdir;
    (if negb isdir then
       LOG_info [Txt "Makeing directory "; Repr (VStr tmpdir)];;
       Os.makedirs env tmpdir
     else mret tt);;
    Os.write env out_tempname (Py.join (String Py.NL EmptyString) lines);;
    there ← Os.path_exists env fname;
    if there : bool then
      same ← Os.filecmp_cmp env out_tempname fname;
      if same : bool then
        Os.unlink env out_tempname;;
        LOG_info [Repr (VStr fname); Txt " is the same"]
      else
        yn ← Os.input env [Txt "Update "; Repr (VStr fname); Txt "?: "];
        if negb (String.eqb (Py.lower yn) "y") then
          Os.unlink env out_tempname;;
          LOG_info [Txt "User requested not to overwrite"]
        else replace_file fname
    else replace_file fname.

End WithEnv.
End Util.

(** ** [documents.py] *)
Module Documents.

(** The [setup] module of the project being documented: [NAME], [DIR], the
    entries of the [SETUP] dictionary that are read, and the optional
    attributes tested with [hasattr]. *)
Record Setup := {
  NAME : string;
  DIR : string;
  description : string;
  long_description : string;
  url : string;
  license : string;
  author : string;
  DEPENDS : option (list string);
  LANGS : option (list string);
  VCS : option string;
  COPYRIGHT_NAME : option string;
}.

Definition with_descriptions (d ld : string) (setup : Setup) : Setup :=
  {| NAME := NAME setup; DIR := DIR setup; description := d;
     long_description := ld; url := url setup; license := license setup;
     author := author setup; DEPENDS := DEPENDS setup; LANGS := LANGS setup;
     VCS := VCS setup; COPYRIGHT_NAME := COPYRIGHT_NAME setup |}.

(** A rule of the license table: where the text comes from, the pattern of
    the year and the pattern of the copyright holder. *)
Definition rule : Type := string * string * string.

Definition LICENSES : list (string * rule) := [
  ("Apache",
    ("apache.rot13", "\[yyyy\]", "\[name of copyright owner\]"));
  ("Artistic",
    ("http://www.perlfoundation.org/attachment/legal/artistic-2_0.txt",
     "2000-2006", "The Perl Foundation"));
  ("GPL.*2",
    ("http://www.gnu.org/licenses/gpl-2.0.txt", "END OF TERMS.+", EmptyString));
  ("GPL.*3",
    ("http://www.gnu.org/licenses/gpl-3.0.txt", "END OF TERMS.+", EmptyString));
  ("LGPL",
    ("http://www.gnu.org/licenses/lgpl.txt", EmptyString, EmptyString));
  ("MIT",
    ("mit-license.rot13", "<year>", "<copyright holders>"));
  ("Mozilla",
    ("http://www.mozilla.org/MPL/MPL-1.1.txt", EmptyString, EmptyString));
  ("BSD",
    ("new-bsd-license.rot13", "<YEAR>", "<OWNER>"))
].

Definition matches (regex text : string) (fl : Re.flags) : bool :=
  bool_decide (is_Some (Re.search regex text fl)).

(** The loop of [out_license] over [LICENSES.items()]: the rule of the
    first key that is found in the license text. *)
Definition to_fetch (lic_text : string) : option rule :=
  snd <$> List.find (λ entry, matches entry.1 lic_text Re.ignorecase) LICENSES.

Definition _title (word : string) (char : ascii) : list string :=
  [Py.times char (String.length word); word; Py.times char (String.length word)].

Definition _underline (word : string) (char : ascii) : list string :=
  [word; Py.times char (String.length word)].

Section WithEnv.
Variable env : Env.

Definition _find_license : M string :=
  names ← Os.listdir env ".";
  match List.find (λ fname, matches "license" fname Re.ignorecase) names with
  | Some fname => mret (Os.abspath env (Path.join "." fname))
  | None => mret EmptyString
  end.

Definition _fill_depends (depends : list string) : list string :=
  let longest :=
    foldl (λ longest req, if (longest <? String.length req)%nat
                          then String.length req else longest) O depends in
  mbind (M := list) (λ req,
    match apt_cache env req with
    | Some (summary, homepage) =>
        ("* " +:+ Py.ljust longest req +:+ " - " +:+ summary) ::
        (if truthy (VStr homepage)
         then ["  " +:+ Py.ljust longest " " +:+ "   (" +:+ homepage +:+ ")"]
         else [])
    | None => [" * " +:+ req]
    end) depends.

Definition _readme_lines (setup : Setup) : M (list string) :=
  let lines := _title (Py.capitalize (NAME setup)) "=" in
  let lines := lines ++ [EmptyString] in
  let lines := lines ++ textwrap_wrap env (description setup) 80 in
  let lines := lines ++ [EmptyString] in
  let lines := lines ++ textwrap_wrap env (long_description setup) 80 in
  let lines := lines ++ [EmptyString] in
  home ← Os.gettext env "Home Page";
  let lines := lines ++ _underline home "-" in
  let lines := lines ++ [EmptyString] in
  hosted ← Os.gettext env "You can find %s hosted at:";
  hosted ← Os.format hosted (NAME setup);
  let lines := lines ++ [hosted] in
  let lines := lines ++ ["  " +:+ url setup] in
  lines ← (if Py.contains "code.google.com/" (url setup) then
             LOG_info [Txt "Adding code.google.com links"];;
             bugs ← Os.gettext env "You can file bugs at:";
             latest ← Os.gettext env "Latest downloads can be found at:";
             mret (lines ++ [EmptyString; bugs; "  " +:+ url setup +:+ "/issues/list";
                             EmptyString; latest;
                             "  " +:+ url setup +:+ "/downloads/list"])
           else mret lines);
  lines ← (match DEPENDS setup with
           | Some depends =>
               req ← Os.gettext env "Requirements";
               msg ← Os.gettext env
                 "This program requires other libraries which you may or may not have installed.";
               mret (lines ++ [EmptyString] ++ _underline req "-"
                       ++ [EmptyString; msg; EmptyString] ++ _fill_depends depends)
           | None => mret lines
           end);
  lic ← Os.gettext env "License";
  let lines := lines ++ [EmptyString] ++ _underline lic "-"
                 ++ [EmptyString; license setup] in
  license_file ← _find_license;
  let license_file := if negb (truthy (VStr license_file))
                      then "LICENSE-2.0.txt" else license_file in
  found ← Os.gettext env "You can find it in the %s file.";
  found ← Os.format found license_file;
  generated ← Os.gettext env "-- file generated by %s.";
  generated ← Os.format generated Util.MAGIC_NAME;
  mret (lines ++ [found; EmptyString; generated]).

Definition _langs (setup : Setup) : M (list string) :=
  match LANGS setup with
  | Some langs =>
      LOG_info [Txt "Will output "; Str (VInt (Z.of_nat (length langs)));
                Txt " README language files."];;
      mret (EmptyString :: langs)
  | None => mret [EmptyString]
  end.

(** Lines 167 to 179.  [gettext.translation] with [fallback=True] always
    gives a translation; [gtext.install(str=True)] raises [TypeError],
    since [install] has no parameter [str], so that the catalogue behind
    [_] is never replaced and [dot_lang] is never returned. *)
Definition _set_locale (setup : Setup) (lang : string) : M string :=
  let dot_lang := if truthy (VStr lang) then "." +:+ lang else EmptyString in
  let locale := if truthy (VStr lang) then lang else EmptyString in
  let locale_dir := Os.abspath env (Path.join (DIR setup) "locale") in
  let gtext := {| domain := NAME setup; localedir := locale_dir;
                  language := locale |} in
  raise TypeError.

Definition out_readme (setup : Setup) : M unit :=
  langs ← _langs setup;
  let eng_desc := description setup in
  let eng_long_desc := long_description setup in
  for_each langs (λ lang,
    dot_lang ← _set_locale setup lang;
    let fname := "README" +:+ dot_lang +:+ ".rst" in
    desc ← Os.gettext env eng_desc;
    long_desc ← Os.gettext env eng_long_desc;
    lines ← _readme_lines (with_descriptions desc long_desc setup);
    Util._safe_overwrite env lines fname);;
  _ ← _set_locale setup EmptyString;
  mret tt.

(** Lines 213 to 218: the text of the license, from the network or from
    the file that comes with the module; [rot13] is not a text encoding, so
    [txt.encode('rot13')] raises [LookupError]. *)
Definition license_text (source : string) : M data :=
  if Py.startswith "http" source then Os.urlopen_read env source
  else
    txt ← Os.read env (Path.join (module_dir env) source);
    if Py.endswith "rot13" source then raise LookupError
    else mret (Text txt).

(** [re.compile(regex, re.DOTALL).sub(repl, txt)].  A template with a
    backslash is compiled first, which may raise [re.error]; then a pattern
    that is a [str] cannot be used on [bytes]. *)
Definition sub (regex repl : string) (txt : data) : M string :=
  match txt with
  | Text s =>
      match re_sub env regex repl s with
      | Some s' => mret s'
      | None => raise ReError
      end
  | Bytes _ =>
      if Py.contains "\" repl then
        match re_sub env regex repl EmptyString with
        | Some _ => raise TypeError
        | None => raise ReError
        end
      else raise TypeError
  end.

(** Lines 206 to 231: [out_license] once the rule is known. *)
Definition write_license (setup : Setup) (to_fetch : rule) : M unit :=
  license_fname ← _find_license;
  license_fname ←
    (if negb (truthy (VStr license_fname)) then
       LOG_info [Txt "Creating license file "; Repr (VStr "LICENSE-2.0.txt")];;
       mret "LICENSE-2.0.txt"
     else
       LOG_info [Txt "License file already exists as "; Repr (VStr license_fname)];;
       mret license_fname);
  let '(source, y_regex, name_regex) := to_fetch in
  txt ← license_text source;
  year ← Os.year env;
  txt ← sub y_regex year txt;
  let copyright_name := default (author setup) (COPYRIGHT_NAME setup) in
  txt ← (if truthy (VStr name_regex)
         then sub name_regex copyright_name (Text txt)
         else mret (txt +:+ " " +:+ copyright_name));
  Util._safe_overwrite env (Py.split Py.NL txt) license_fname.

Definition out_license (setup : Setup) : M unit :=
  let lic_text := license setup in
  match to_fetch lic_text with
  | None => raise (DocumentsException [Txt "Unknown lic_text "; Repr (VStr lic_text)])
  | Some info => write_license setup info
  end.

Definition _install_lines (setup : Setup) : M (list string) :=
  installing ← Os.gettext env "Installing %s";
  installing ← Os.format installing (NAME setup);
  let lines := _title installing "=" in
  let lines := lines ++ [EmptyString] in
  let lines := lines ++ _underline "Downloading" "-" in
  let lines := lines ++ [EmptyString] in
  let vcs := default (url setup) (VCS setup) in
  lines ← (if Py.contains "code.google.com/" vcs then
             LOG_info [Txt "Adding code.google.com links"];;
             latest ← Os.gettext env "You will always find the latest version at:";
             let lines := lines ++ [latest; EmptyString;
                                    "  " +:+ url setup +:+ "/downloads/list";
                                    EmptyString] in
             if Py.endswith "/hg/" vcs || Py.endswith "/hg" vcs then
               clone ← Os.gettext env "If you prefer you can clone repository from::";
               mret (lines ++ [clone; EmptyString;
                               "  hg clone " +:+ vcs +:+ " " +:+ NAME setup;
                               EmptyString])
             else mret lines
           else mret lines);
  installation ← Os.gettext env "Installation";
  let lines := lines ++ _underline installation "-" ++ [EmptyString] in
  pip ← Os.gettext env "To install using ``pip``,::";
  let lines := lines ++ [pip; EmptyString; "  $ pip install " +:+ NAME setup;
                         EmptyString] in
  easy ← Os.gettext env "To install using ``easy_install``,::";
  let lines := lines ++ [easy; EmptyString; "  $ easy_install " +:+ NAME setup;
                         EmptyString] in
  deb ← Os.gettext env "To install from .deb package::";
  let lines := lines ++ [deb; EmptyString;
                         "  $ sudo dpkg -i " +:+ NAME setup +:+ "*.deb";
                         EmptyString;
                         "If you get errors like Package " +:+ NAME setup
                           +:+ " depends on XXX; however it is not installed.";
                         EmptyString;
                         "  $ sudo apt-get -f install";
                         "Should install everything you need, then run:";
                         "  $ sudo dpkg -i " +:+ NAME setup +:+ "*.deb # again"] in
  lines ← (match DEPENDS setup with
           | Some depends =>
               dep ← Os.gettext env "Dependancies";
               requires ← Os.gettext env "This program requires::";
               mret (lines ++ [EmptyString] ++ _underline dep "-"
                       ++ [EmptyString; requires; EmptyString]
                       ++ _fill_depends depends)
           | None => mret lines
           end);
  generated ← Os.gettext env "-- file generated by %s.";
  generated ← Os.format generated Util.MAGIC_NAME;
  mret (lines ++ [EmptyString; generated]).

Definition out_install (setup : Setup) : M unit :=
  langs ← _langs setup;
  for_each langs (λ lang,
    dot_lang ← _set_locale setup lang;
    let fname := "INSTALL" +:+ dot_lang +:+ ".rst" in
    lines ← _install_lines setup;
    Util._safe_overwrite env lines fname);;
  _ ← _set_locale setup EmptyString;
  mret tt.

(** The script at the end of the module. *)
Definition main (setup : Setup) : M unit :=
  out_readme setup;;
  out_license setup;;
  out_install setup.

End WithEnv.
End Documents.

(** ** [googlecode_update.py] *)
Module Googlecode.

(** An entry of the list [get_download_list] returns: the dictionary with
    the keys [project_name], [updated], [summary], [labels] and [fname]. *)
Record download := {
  project_name : string;
  updated : option string;
  summary : option string;
  labels : list string;
  fname : option string;
}.

Definition with_labels (l : list string) (item : download) : download :=
  {| project_name := project_name item; updated := updated item;
     summary := summary item; labels := l; fname := fname item |}.

(** What [get_file_details] returns: the dictionary built on line 104,
    with the keys [project_name], [fname], [sha1] and [date]. *)
Record details := {
  d_project_name : string;
  d_fname : string;
  sha1 : option string;
  date : option string;
}.

(** [str(v)] of a string or [None] *)
Definition str (o : option string) : string := default "None" o.

Definition _safe_search (regex haystack : string) (options : Re.flags)
    : option string :=
  match Re.search regex haystack options with
  | None => None
  | Some grps => Re.group1 grps
  end.

Definition quoted (s : string) : string :=
  String Py.DQ s +:+ String Py.DQ EmptyString.

Definition re_entry : string := "<entry>(.+?)</entry>".
Definition re_updated : string := "<updated>(.+?)</updated>".
Definition re_title : string := "<title>\s*(.*)\s*</title>".
Definition re_labels : string := "Labels:(.+?)&lt;".
Definition re_fname : string :=
  "downloads/detail\?name=(.+?)" +:+ String Py.DQ EmptyString.
Definition re_sha1 : string := "SHA1 Checksum: ([^<]+)".
Definition re_date : string :=
  "<span class=" +:+ quoted "date" +:+ "[^>]+ title="
    +:+ String Py.DQ ("([^" +:+ String Py.DQ ("]+)" +:+ String Py.DQ EmptyString)).
Definition re_download_count : string := ">Downloads:&nbsp;</th><td>([^<]+)</td>".

(** The body of the loop of [get_download_list] (lines 34 to 44). *)
Definition entry_info (project : string) (entry : string) : download :=
  let updated := _safe_search re_updated entry Re.no_flags in
  let summary := _safe_search re_title entry Re.no_flags in
  let labels := _safe_search re_labels entry Re.dotall in
  let labels := if truthy (of_opt labels)
                then String.words (default EmptyString labels) else [] in
  let fname := _safe_search re_fname entry Re.no_flags in
  {| project_name := project; updated := updated; summary := summary;
     labels := labels; fname := fname |}.

(** The texts of the feed's entries: [match.group(1)] of every match of
    [re_entry]. *)
Definition entries (text : string) : list string :=
  (λ m, default EmptyString (Re.group1 m)) <$> Re.finditer re_entry text Re.dotall.

Definition _filter_featured_downloads (lst : list download) : list download :=
  filter (λ item, "Featured" ∈ labels item) lst.

(** [l.remove(x)]: without the first [x]; [ValueError] when there is none. *)
Fixpoint list_remove (x : string) (l : list string) : option (list string) :=
  match l with
  | [] => None
  | y :: l' => if String.eqb x y then Some l' else cons y <$> list_remove x l'
  end.

(** [except_list and fname in except_list] *)
Definition excepted (except_list : option (list string)) (item : download) : bool :=
  match except_list, fname item with
  | Some l, Some name => bool_decide (name ∈ l)
  | _, _ => false
  end.

Section WithEnv.
Variable env : Env.

(** [re_entry.finditer(text)]: the pattern is a [str]. *)
Definition finditer_entries (text : data) : M (list string) :=
  match text with
  | Text s => mret (entries s)
  | Bytes _ => raise TypeError
  end.

(** [_safe_search(regex, haystack, options)] on what [read()] gave. *)
Definition _safe_search_in (regex : string) (haystack : data) (options : Re.flags)
    : M (option string) :=
  match haystack with
  | Text s => mret (_safe_search regex s options)
  | Bytes _ => raise TypeError
  end.

Definition get_download_list (project : string) : M (list download) :=
  let url := "http://code.google.com/feeds/p/" +:+ project +:+ "/downloads/basic" in
  text ← try_except (Os.urlopen_read env url) is_URLError (mret (Text EmptyString));
  found ← finditer_entries text;
  mret (entry_info project <$> found).

Definition get_file_details (project name : string) : M details :=
  let url := "http://code.google.com/p/" +:+ project
               +:+ "/downloads/detail?name=" +:+ name in
  print [Txt "Checking SHA1 at "; Repr (VStr url)];;
  text ← try_except (Os.urlopen_read env url) is_HTTPError (mret (Text EmptyString));
  sha1 ← _safe_search_in re_sha1 text Re.dotall;
  let sha1 := if truthy (of_opt sha1) then Py.strip <$> sha1 else sha1 in
  date ← _safe_search_in re_date text Re.dotall;
  download_count ← _safe_search_in re_download_count text Re.dotall;
  download_count ←
    (if truthy (of_opt download_count) then
       match Py.int (default EmptyString download_count) with
       | Some n => mret (VInt n)
       | None => raise ValueError
       end
     else mret (of_opt download_count));
  mret {| d_project_name := project; d_fname := name; sha1 := sha1; date := date |}.

(** Lines 109 to 118.  [file] is not a built-in name: line 116 raises
    [NameError], and nothing is written. *)
Definition download_file (project name dist_dir : string) : M unit :=
  let url := "http://" +:+ project +:+ ".googlecode.com/files/" +:+ name in
  text ← Os.urlopen_read env url;
  let outfilename := Path.join dist_dir name in
  there ← Os.path_exists env dist_dir;
  (if negb there then Os.makedirs env dist_dir else mret tt);;
  raise (NameError "file").

(** The local [hex_digest] is bound in the first branch only: the second
    assigns to [hex_digext]. *)
Definition maybe_download_file (project name dist_dir : string) : M unit :=
  details ← get_file_details project name;
  hex_digest ←
    (if truthy (of_opt (sha1 details)) then
       let dist_filename := Path.join dist_dir name in
       data ← Os.read env dist_filename;
       mret (Some (sha1_hexdigest env data))
     else
       let hex_digext := "-" in
       mret None);
  match hex_digest with
  | None => raise (UnboundLocalError "hex_digest")
  | Some hex_digest =>
      if bool_decide (Some hex_digest = sha1 details) then
        print [Txt "SHA1 checksums don't match, dowloading."];;
        download_file project name dist_dir
      else mret tt
  end.

Definition maybe_upload_file (project dist_dir name : string)
    (summary : option string) (labels : list string)
    (username password : string) : M unit :=
  details ← get_file_details project name;
  let dist_filename := Path.join dist_dir name in
  hex_digest ←
    (if truthy (of_opt (sha1 details)) then
       data ← Os.read env dist_filename;
       mret (sha1_hexdigest env data)
     else mret "-");
  if negb (truthy (of_opt (sha1 details)))
     || negb (bool_decide (Some hex_digest = sha1 details)) then
    (if truthy (of_opt (sha1 details))
     then print [Txt "SHA1 checksums don't match, uploading "; Repr (VStr name); Txt "."]
     else print [Txt "File not there, uploading "; Repr (VStr name); Txt "."]);;
    let args := {| up_file := Path.join dist_dir name; up_project_name := project;
                   up_user_name := username; up_password := password;
                   up_summary := summary; up_labels := labels |} in
    answer ← Os.upload env args;
    let '(status, reason, url) := answer in
    if negb (truthy (of_opt url)) then
      print [Repr (VInt status); Txt ", "; Repr (VStr reason)];;
      print [Repr (VStr (Path.join dist_dir name)); Txt ", "; Repr (VStr project);
             Txt ", "; Repr (of_opt summary); Txt ", "; Repr (VList labels)];;
      sys_exit (-1)
    else mret tt
  else print [Txt "Checksums match, not uploading "; Repr (VStr name); Txt "."].

Definition update_file (info : download) (dist_dir username password : string)
    : M unit :=
  print [Txt "Updating "; Str (of_opt (fname info))];;
  _ ← Os.upload env
        {| up_file := dist_dir +:+ "/" +:+ str (fname info);
           up_project_name := project_name info; up_user_name := username;
           up_password := password; up_summary := summary info;
           up_labels := labels info |};
  mret tt.

(** The first loop of [remove_featured_labels] (lines 197 to 206). *)
Definition fetch_item (project dist_dir : string)
    (except_list : option (list string)) (item : download) : M unit :=
  if excepted except_list item then mret tt
  else
    match fname item with
    | None => raise TypeError
    | Some name =>
        let fname := Path.join "dist" name in
        there ← Os.path_exists env fname;
        if negb there then
          print [Txt "Dowloading "; Repr (VStr fname)];;
          download_file project name dist_dir
        else
          print [Txt "Checking if I need to dowload "; Repr (VStr fname)];;
          maybe_download_file project name dist_dir
    end.

(** The second loop (lines 208 to 213). *)
Definition relabel_item (dist_dir user_name password : string)
    (except_list : option (list string)) (item : download) : M unit :=
  if excepted except_list item then mret tt
  else
    match list_remove "Featured" (labels item) with
    | None => raise ValueError
    | Some l =>
        let item := with_labels l item in
        print [Txt ("Removing " +:+ quoted "Featured" +:+ " from ");
               Repr (of_opt (fname item))];;
        update_file item dist_dir user_name password
    end.

Definition remove_featured_labels (project user_name password : string)
    (except_list : option (list string)) : M unit :=
  let dist_dir := "dist" in
  lst ← _filter_featured_downloads <$> get_download_list project;
  for_each lst (fetch_item project dist_dir except_list);;
  for_each lst (relabel_item dist_dir user_name password except_list).

End WithEnv.
End Googlecode.

(** ** Vocabulary of the statements *)
(** The last line of a document in the original language: the message
    [-- file generated by %s.] formatted with the marker. *)
Definition marker_line : string := "-- file generated by `pybdist`.".

(** An event other than asking the operator and renaming a file. *)
Definition silent (e : event) : bool :=
  match e with
  | EvInput _ | EvRename _ _ => false
  | _ => true
  end.


(** Whether group 1 has been captured once [re] has matched, given whether
    the group is open and whether it was captured before. *)
Fixpoint captures (re : Re.regex) (opened captured : bool) : bool :=
  match re with
  | [] => captured
  | Re.GOpen :: re' => captures re' true captured
  | Re.GClose :: re' => captures re' opened (opened || captured)
  | Re.Atom _ _ :: re' => captures re' opened captured
  end.

Definition given {A} (o : option A) : bool :=
  match o with
  | Some _ => true
  | None => false
  end.


Section Vocabulary.
Variable env : Env.

(** What [_find_license] returns in a world. *)
Definition license_found (w : World) : string :=
  match List.find (λ fname, Documents.matches "license" fname Re.ignorecase)
          (omap (Os.child_of (Os.abspath env "."))
             ((map_to_list (files w)).*1 ++ elements (dirs w))) with
  | Some fname => Os.abspath env (Path.join "." fname)
  | None => EmptyString
  end.

(** The message of the last line of a README or INSTALL document, in the
    active catalogue. *)
Definition generated_by (w : World) : string :=
  ugettext env (underscore w) "-- file generated by %s.".


(** A text that the network has given as the body of some URL. *)
Definition downloaded (text : string) : Prop :=
  ∃ history url, urlopen_answer env history url = Body text.

(** From [w] to [w'] every path either holds what it held, or holds a
    downloaded text. *)
Definition only_adds (w w' : World) : Prop :=
  ∀ p, files w' !! p = files w !! p
       ∨ ∃ text, files w' !! p = Some text ∧ downloaded text.

Definition keeps_files {A} (m : M A) : Prop := ∀ w, only_adds w (m w).2.

End Vocabulary.

(** ** Concrete worlds

    A project in [/proj], the module's data files in [/pkg], an operator
    who answers [y], the year 2024, no translations, and a hosting service
    that knows two Featured files of the project [pybdist].  In [env0] the
    pages of the service read as text and [re.sub] finds nothing to
    replace; [Cases.env_urllib] is the same service read with [urllib]. *)
Module Scenario.

Definition feed_url : string :=
  "http://code.google.com/feeds/p/pybdist/downloads/basic".
Definition detail_url (name : string) : string :=
  "http://code.google.com/p/pybdist/downloads/detail?name=" +:+ name.
Definition file_url (name : string) : string :=
  "http://pybdist.googlecode.com/files/" +:+ name.

Definition entry_a : string :=
  "<updated>2010-05-01T10:00:00Z</updated><title> pybdist-0.3.zip </title>"
  +:+ "Labels: Featured Type-Archive &lt;downloads/detail?name=a.zip"
  +:+ String Py.DQ " ".

(** An entry without [<updated>]. *)
Definition entry_b : string :=
  "<title>deb package</title>Labels: Featured &lt;downloads/detail?name=b.deb"
  +:+ String Py.DQ " ".

Definition feed : string :=
  "<feed><entry>" +:+ entry_a +:+ "</entry><entry>" +:+ entry_b +:+ "</entry></feed>".

Definition page (checksum count : string) : string :=
  "<th>SHA1 Checksum: " +:+ checksum +:+ " <a>what's this?</a></th>"
  +:+ "<th>Downloads:&nbsp;</th><td>" +:+ count +:+ "</td>".

(** What the license's own site sends for the GPL (shortened). *)
Definition gpl_text : string :=
  "GNU GENERAL PUBLIC LICENSE" +:+ String Py.NL
    ("Version 3, 29 June 2007" +:+ String Py.NL
       ("END OF TERMS AND CONDITIONS" +:+ String Py.NL
          "How to Apply These Terms to Your New Programs")).

Definition service (url : string) : http_answer :=
  if String.eqb url feed_url then Body feed
  else if String.eqb url (detail_url "a.zip") then Body (page "abc123" "42")
  else if String.eqb url (detail_url "b.deb") then Body (page "0f0f0f" "7")
  else if String.eqb url (file_url "a.zip") then Body "fresh a.zip"
  else if String.eqb url (file_url "b.deb") then Body "fresh b.deb"
  else if String.eqb url "http://www.gnu.org/licenses/gpl-3.0.txt" then Body gpl_text
  else HttpFails.

(** A stand-in for SHA1 that tells the three file contents used here
    apart. *)
Definition digest (data : string) : string :=
  if String.eqb data "kept a.zip" then "abc123"
  else if String.eqb data "stale a.zip" then "def456"
  else "777777".

Definition env0 : Env := {|
  urlopen_answer := λ _ url, service url;
  urlopen_gives_str := true;
  upload_answer := λ _ _, (403, "Forbidden", None);
  input_answer := λ _, "y";
  sha1_hexdigest := digest;
  strftime_Y := λ _, 2024%nat;
  re_sub := λ _ _ text, Some text;
  ugettext := λ _ message, message;
  apt_cache := λ _, None;
  textwrap_wrap := λ text _, [text];
  gettempdir := "/tmp";
  getcwd := "/proj";
  module_dir := "/pkg";
|}.

Definition setup0 : Documents.Setup := {|
  Documents.NAME := "pybdist";
  Documents.DIR := "src/pybdist";
  Documents.description := "Python Build Distribution Library (pybdist)";
  Documents.long_description := "A library used for personal projects.";
  Documents.url := "http://code.google.com/p/pybdist";
  Documents.license := "Apache 2.0";
  Documents.author := "Scott Kirkwood";
  Documents.DEPENDS := None;
  Documents.LANGS := None;
  Documents.VCS := Some "http://pybdist.code.google.com/hg";
  Documents.COPYRIGHT_NAME := Some "Google Inc.";
|}.

(** The same project under a license the table does not know. *)
Definition setup_unknown : Documents.Setup := {|
  Documents.NAME := "pybdist";
  Documents.DIR := "src/pybdist";
  Documents.description := "Python Build Distribution Library (pybdist)";
  Documents.long_description := "A library used for personal projects.";
  Documents.url := "http://code.google.com/p/pybdist";
  Documents.license := "WTFPL";
  Documents.author := "Scott Kirkwood";
  Documents.DEPENDS := None;
  Documents.LANGS := None;
  Documents.VCS := Some "http://pybdist.code.google.com/hg";
  Documents.COPYRIGHT_NAME := Some "Google Inc.";
|}.

(** The same project under the GPL, whose text comes from the network. *)
Definition setup_gpl : Documents.Setup := {|
  Documents.NAME := "pybdist";
  Documents.DIR := "src/pybdist";
  Documents.description := "Python Build Distribution Library (pybdist)";
  Documents.long_description := "A library used for personal projects.";
  Documents.url := "http://code.google.com/p/pybdist";
  Documents.license := "GPL v3";
  Documents.author := "Scott Kirkwood";
  Documents.DEPENDS := None;
  Documents.LANGS := None;
  Documents.VCS := Some "http://pybdist.code.google.com/hg";
  Documents.COPYRIGHT_NAME := Some "Google Inc.";
|}.

Definition apache_text : string :=
  "Apache License" +:+ String Py.NL
    "Copyright [yyyy] [name of copyright owner]".

Definition at_import : catalogue :=
  {| domain := "pybdist"; localedir := EmptyString; language := EmptyString |}.

(** A fresh project directory. *)
Definition w0 : World := {|
  files := {[ "/pkg/apache.rot13" := Py.rot13 apache_text ]};
  dirs := {[ "/proj"; "/pkg"; "/tmp" ]};
  underscore := at_import;
  trace := [];
|}.

(** A hand-written README and a generated one. *)
Definition w_hand : World := {|
  files := {[ "/proj/README.rst" := "My own notes" +:+ String Py.NL "by hand" ]};
  dirs := {[ "/proj"; "/tmp" ]};
  underscore := at_import;
  trace := [];
|}.
Definition generated_lines : list string := ["Title"; EmptyString; marker_line].
Definition w_same : World := {|
  files := {[ "/proj/README.rst" := Py.join (String Py.NL EmptyString) generated_lines ]};
  dirs := {[ "/proj"; "/tmp" ]};
  underscore := at_import;
  trace := [];
|}.

(** A [dist] directory whose [a.zip] has the checksum the service reports,
    and one whose [a.zip] has another. *)
Definition w_kept : World := {|
  files := {[ "/proj/dist/a.zip" := "kept a.zip" ]};
  dirs := {[ "/proj"; "/proj/dist" ]};
  underscore := at_import;
  trace := [];
|}.
Definition w_stale : World := {|
  files := {[ "/proj/dist/a.zip" := "stale a.zip"; "/proj/dist/b.deb" := "stale b.deb" ]};
  dirs := {[ "/proj"; "/proj/dist" ]};
  underscore := at_import;
  trace := [];
|}.

End Scenario.

(** ** More vocabulary *)



(** [m] changes no file outside of [allowed]. *)
(** From [w] to [w'] no file and no directory has changed, and the
    catalogue behind [_] is the same. *)
Definition unchanged (w w' : World) : Prop :=
  files w' = files w ∧ dirs w' = dirs w ∧ underscore w' = underscore w.

Definition touches_only {A} (allowed : string → Prop) (m : M A) : Prop :=
  ∀ w p, ¬ allowed p → files (m w).2 !! p = files w !! p.

Section MoreVocabulary.
Variable env : Env.

(** Where the writer keeps its candidate, and where it keeps the old
    version of [fname]. *)
Definition candidate : string := Os.abspath env (Util.out_tempname env).
Definition backup_of (fname : string) : string :=
  Os.abspath env (Path.join (Util.tmpdir env) (Path.basename fname)).



(** The paths the writer may change when it writes [fname]. *)
Definition writer_paths (fname : string) (p : string) : Prop :=
  p = Os.abspath env fname ∨ p = candidate ∨ p = backup_of fname.

End MoreVocabulary.

(** ['.%s' % lang], or nothing for the original language (lines 167 to
    171 of [documents.py]). *)
Definition dot_lang (lang : string) : string :=
  if truthy (VStr lang) then "." +:+ lang else EmptyString.

(** The languages the documents are written in: [_langs(setup)]. *)
Definition languages (setup : Documents.Setup) : list string :=
  EmptyString :: default [] (Documents.LANGS setup).

Section DocumentPaths.
Variable env : Env.

(** The file names the generator writes to: a README and an INSTALL for
    every language, and the license file, under its default name or under
    the absolute path of a file of the working directory whose name has
    [license] in it. *)
Definition destination (setup : Documents.Setup) (fname : string) : Prop :=
  (∃ lang, lang ∈ languages setup
           ∧ (fname = "README" +:+ dot_lang lang +:+ ".rst"
              ∨ fname = "INSTALL" +:+ dot_lang lang +:+ ".rst"))
  ∨ fname = "LICENSE-2.0.txt"
  ∨ (∃ name, Documents.matches "license" name Re.ignorecase = true
             ∧ fname = Os.abspath env (Path.join "." name)).

Definition document_paths (setup : Documents.Setup) (p : string) : Prop :=
  ∃ fname, destination setup fname ∧ writer_paths env fname p.

(** The file [name] in the directory [dist_dir]. *)
Definition artifact (dist_dir name : string) : string :=
  Os.abspath env (Path.join dist_dir name).

End DocumentPaths.


(** ** More concrete cases *)
Module Cases.

Definition serving (service : string → http_answer) (env : Env) : Env := {|
  urlopen_answer := λ _ url, service url;
  urlopen_gives_str := urlopen_gives_str env;
  upload_answer := upload_answer env;
  input_answer := input_answer env;
  sha1_hexdigest := sha1_hexdigest env;
  strftime_Y := strftime_Y env;
  re_sub := re_sub env;
  ugettext := ugettext env;
  apt_cache := apt_cache env;
  textwrap_wrap := textwrap_wrap env;
  gettempdir := gettempdir env;
  getcwd := getcwd env;
  module_dir := module_dir env;
|}.
Definition accepting (env : Env) : Env := {|
  urlopen_answer := urlopen_answer env;
  urlopen_gives_str := urlopen_gives_str env;
  upload_answer := λ _ args,
    (201, "Created", Some ("http://pybdist.googlecode.com/files/" +:+ up_file args));
  input_answer := input_answer env;
  sha1_hexdigest := sha1_hexdigest env;
  strftime_Y := strftime_Y env;
  re_sub := re_sub env;
  ugettext := ugettext env;
  apt_cache := apt_cache env;
  textwrap_wrap := textwrap_wrap env;
  gettempdir := gettempdir env;
  getcwd := getcwd env;
  module_dir := module_dir env;
|}.
Definition knowing (cache : string → option (string * string)) (env : Env) : Env := {|
  urlopen_answer := urlopen_answer env;
  urlopen_gives_str := urlopen_gives_str env;
  upload_answer := upload_answer env;
  input_answer := input_answer env;
  sha1_hexdigest := sha1_hexdigest env;
  strftime_Y := strftime_Y env;
  re_sub := re_sub env;
  ugettext := ugettext env;
  apt_cache := cache;
  textwrap_wrap := textwrap_wrap env;
  gettempdir := gettempdir env;
  getcwd := getcwd env;
  module_dir := module_dir env;
|}.

Definition with_urllib (env : Env) : Env := {|
  urlopen_answer := urlopen_answer env;
  urlopen_gives_str := false;
  upload_answer := upload_answer env;
  input_answer := input_answer env;
  sha1_hexdigest := sha1_hexdigest env;
  strftime_Y := strftime_Y env;
  re_sub := re_sub env;
  ugettext := ugettext env;
  apt_cache := apt_cache env;
  textwrap_wrap := textwrap_wrap env;
  gettempdir := gettempdir env;
  getcwd := getcwd env;
  module_dir := module_dir env;
|}.

(** The same service read with [urllib]: every body is [bytes]. *)
Definition env_urllib : Env := with_urllib Scenario.env0.
Definition env_offline : Env := serving (λ _, UrlFails) Scenario.env0.
Definition env_open : Env := accepting Scenario.env0.

(** An entry of the feed that carries the label twice. *)
Definition item_twice : Googlecode.download := {|
  Googlecode.project_name := "pybdist";
  Googlecode.updated := None;
  Googlecode.summary := Some "pybdist-0.3.zip";
  Googlecode.labels := ["Type-Archive"; "Featured"; "OpSys-All"; "Featured"];
  Googlecode.fname := Some "a.zip";
|}.

End Cases.
(** ** Reasoning about runs *)

Lemma bind_run {A B} (m : M A) (f : A → M B) (w : World) :
  (m ≫= f) w =
  match m w with
  | (Ok a, w') => f a w'
  | (Raise e, w') => (Raise e, w')
  | (Exit n, w') => (Exit n, w')
  end.
Proof. reflexivity. Qed.

Lemma fmap_run {A B} (g : A → B) (m : M A) (w : World) :
  (g <$> m) w =
  match m w with
  | (Ok a, w') => (Ok (g a), w')
  | (Raise e, w') => (Raise e, w')
  | (Exit n, w') => (Exit n, w')
  end.
Proof. reflexivity. Qed.

Lemma ret_run {A} (a : A) (w : World) : mret (M := M) a w = (Ok a, w).
Proof. reflexivity. Qed.

Lemma emit_run (e : event) (w : World) : emit e w = (Ok tt, record e w).
Proof. reflexivity. Qed.

Ltac run_step :=
  rewrite ?bind_run, ?fmap_run, ?ret_run; unfold LOG_info, print;
  rewrite ?bind_run, ?emit_run; cbn [fst snd].

(** ** The safe file writer *)
Section SafeOverwrite.
Variable env : Env.

Lemma has_magic_false (text : string) :
  (∀ line, line ∈ Util.file_lines text → Py.contains Util.MAGIC_NAME line = false) →
  Util.has_magic text = false.
Proof.
  intros H. unfold Util.has_magic.
  apply not_true_is_false. intros Hex.
  apply existsb_exists in Hex as (line & Hin & Hc).
  apply list_elem_of_In in Hin. rewrite (H line Hin) in Hc. discriminate.
Qed.

(** C2.  A destination that exists as a file and has no line with the
    marker is left alone: the writer returns, and all it has done is to log
    one line.  No file and no directory has changed. *)
Theorem safe_overwrite_keeps_unmarked (lines : list string) (fname text : string)
    (w : World) :
  files w !! Os.abspath env fname = Some text →
  (∀ line, line ∈ Util.file_lines text →
           Py.contains Util.MAGIC_NAME line = false) →
  ∃ w', Util._safe_overwrite env lines fname w = (Ok tt, w')
        ∧ files w' = files w
        ∧ dirs w' = dirs w
        ∧ trace w' = trace w ++
            [EvLog [Repr (VStr fname);
                    Txt " not overwritten because it's missing magic string ";
                    Repr (VStr Util.MAGIC_NAME)]].
Proof.
  intros Hfile Hlines. apply has_magic_false in Hlines.
  eexists. split.
  - unfold Util._safe_overwrite, Os.path_exists, Os.read, Os.is_file.
    run_step. rewrite Hfile.
    rewrite bool_decide_eq_true_2 by eauto. cbn.
    run_step. rewrite Hfile. rewrite Hlines. cbn. reflexivity.
  - auto.
Qed.

End SafeOverwrite.

(** A README written by hand is not touched. *)
Lemma safe_overwrite_keeps_unmarked_witness :
  ∃ w', Util._safe_overwrite Scenario.env0 Scenario.generated_lines "README.rst"
          Scenario.w_hand = (Ok tt, w')
        ∧ files w' = files Scenario.w_hand
        ∧ dirs w' = dirs Scenario.w_hand
        ∧ trace w' = trace Scenario.w_hand ++
            [EvLog [Repr (VStr "README.rst");
                    Txt " not overwritten because it's missing magic string ";
                    Repr (VStr Util.MAGIC_NAME)]].
Proof.
  apply (safe_overwrite_keeps_unmarked Scenario.env0 Scenario.generated_lines
           "README.rst" ("My own notes" +:+ String Py.NL "by hand") Scenario.w_hand).
  - by vm_compute.
  - intros line Hin.
    change (line ∈ ["My own notes"; "by hand"]) in Hin.
    repeat (apply elem_of_cons in Hin as [-> | Hin]; [reflexivity |]).
    by apply elem_of_nil in Hin.
Defined.

(** ** Facts about strings and paths *)

Lemma app_cons (c : ascii) (s t : string) : String c s +:+ t = String c (s +:+ t).
Proof. reflexivity. Qed.

Lemma app_nil_l (t : string) : EmptyString +:+ t = t.
Proof. reflexivity. Qed.

Lemma app_length (s t : string) :
  String.length (s +:+ t) = (String.length s + String.length t)%nat.
Proof.
  induction s as [|c s IH]; [done |].
  rewrite app_cons. cbn. by rewrite IH.
Qed.

Lemma app_assoc_s (s t u : string) : (s +:+ t) +:+ u = s +:+ t +:+ u.
Proof.
  induction s as [|c s IH]; [done |].
  rewrite !app_cons. by rewrite IH.
Qed.

Lemma split_go_app (sep : ascii) (s t cur : string) :
  Py.split_go sep cur (s +:+ String sep t) =
  Py.split_go sep cur s ++ Py.split_go sep EmptyString t.
Proof.
  revert cur. induction s as [|c s IH]; intros cur.
  - rewrite app_nil_l. cbn. by rewrite Ascii.eqb_refl.
  - rewrite app_cons. cbn. destruct (Ascii.eqb c sep); cbn; by rewrite IH.
Qed.

Lemma join_snoc_longer (sep x : string) (l : list string) :
  x ≠ EmptyString →
  (String.length (Py.join sep l) < String.length (Py.join sep (l ++ [x])))%nat.
Proof.
  intros Hx.
  assert (0 < String.length x)%nat as Hlen by (destruct x; cbn; [done | lia]).
  induction l as [|a l IH]; [cbn; lia |].
  destruct l as [|b l].
  - cbn. rewrite !app_length. lia.
  - change (Py.join sep (a :: b :: l)) with (a +:+ sep +:+ Py.join sep (b :: l)).
    change (Py.join sep ((a :: b :: l) ++ [x]))
      with (a +:+ sep +:+ Py.join sep ((b :: l) ++ [x])).
    rewrite !app_length. lia.
Qed.

Lemma normpath_child (p : string) :
  Path.normpath (p +:+ "/tmp.tmp") ≠ Path.normpath p.
Proof.
  unfold Path.normpath, Py.split.
  change (p +:+ "/tmp.tmp") with (p +:+ String "/" "tmp.tmp").
  rewrite split_go_app.
  change (Py.split_go "/" EmptyString "tmp.tmp") with ["tmp.tmp"].
  rewrite foldl_snoc.
  change (Path.norm_step ?seen "tmp.tmp") with ("tmp.tmp" :: seen).
  cbn [rev]. intros Heq. injection Heq as Heq.
  apply (f_equal String.length) in Heq.
  pose proof (join_snoc_longer "/" "tmp.tmp"
                (rev (foldl Path.norm_step [] (Py.split_go "/" EmptyString p)))) as Hlt.
  specialize (Hlt ltac:(discriminate)). lia.
Qed.

Lemma endswith_slash (s : string) : Py.endswith "/" (s +:+ "pybdist") = false.
Proof.
  induction s as [|c s IH]; [reflexivity |].
  rewrite app_cons. cbn [Py.endswith]. rewrite IH.
  rewrite orb_false_r. apply String.eqb_neq. intros Heq.
  injection Heq as _ Heq. by destruct s.
Qed.

Section TempNames.
Variable env : Env.

Lemma tmpdir_shape : ∃ t, Util.tmpdir env = t +:+ "pybdist".
Proof.
  unfold Util.tmpdir, Path.join.
  change (Py.startswith "/" "pybdist") with false. cbv iota.
  destruct (_ || _).
  - by eexists.
  - exists (gettempdir env +:+ "/"). by rewrite app_assoc_s.
Qed.

Lemma out_tempname_shape : Util.out_tempname env = Util.tmpdir env +:+ "/tmp.tmp".
Proof.
  unfold Util.out_tempname. destruct tmpdir_shape as [t Ht]. rewrite Ht.
  unfold Path.join. change (Py.startswith "/" "tmp.tmp") with false. cbv iota.
  rewrite endswith_slash. rewrite orb_false_r.
  destruct t; reflexivity.
Qed.

Lemma abspath_out_tempname :
  Os.abspath env (Util.out_tempname env) ≠ Os.abspath env (Util.tmpdir env).
Proof.
  rewrite out_tempname_shape. unfold Os.abspath.
  destruct tmpdir_shape as [t Ht]. rewrite Ht.
  assert (Path.join (getcwd env) ((t +:+ "pybdist") +:+ "/tmp.tmp")
          = Path.join (getcwd env) (t +:+ "pybdist") +:+ "/tmp.tmp") as ->.
  { unfold Path.join.
    assert (Py.startswith "/" ((t +:+ "pybdist") +:+ "/tmp.tmp")
            = Py.startswith "/" (t +:+ "pybdist")) as ->.
    { destruct t as [|c t]; [reflexivity |]. rewrite !app_cons.
      reflexivity. }
    destruct (Py.startswith _ _); [done |].
    destruct (_ || _); by rewrite !app_assoc_s. }
  apply normpath_child.
Qed.

End TempNames.

Section SafeOverwriteSame.
Variable env : Env.

Lemma path_exists_run (p : string) (w : World) :
  Os.path_exists env p w = (Ok (Os.is_file env p w || Os.is_dir env p w), w).
Proof. reflexivity. Qed.

Lemma path_isdir_run (p : string) (w : World) :
  Os.path_isdir env p w = (Ok (Os.is_dir env p w), w).
Proof. reflexivity. Qed.

Lemma read_run (p text : string) (w : World) :
  files w !! Os.abspath env p = Some text → Os.read env p w = (Ok text, w).
Proof. intros H. unfold Os.read. by rewrite H. Qed.

Lemma filecmp_run (a b x y : string) (w : World) :
  files w !! Os.abspath env a = Some x →
  files w !! Os.abspath env b = Some y →
  Os.filecmp_cmp env a b w = (Ok (String.eqb x y), w).
Proof. intros Ha Hb. unfold Os.filecmp_cmp. by rewrite Ha, Hb. Qed.

Lemma has_magic_true (text : string) :
  (∃ line, line ∈ Util.file_lines text ∧ Py.contains Util.MAGIC_NAME line = true) →
  Util.has_magic text = true.
Proof.
  intros (line & Hin & Hc). unfold Util.has_magic.
  apply existsb_exists. exists line. split; [by apply list_elem_of_In | done].
Qed.

(** C6.  The destination exists, carries the marker and already holds what
    would be written.  Then the writer neither asks the operator nor renames
    anything, and no file other than its own temporary candidate changes.
    When the temporary place can be used (its directory name is not taken
    by a regular file, the candidate's name not by a directory), the writer
    returns normally and the candidate is gone. *)
Theorem safe_overwrite_identical (lines : list string) (fname : string) (w : World) :
  files w !! Os.abspath env fname = Some (Py.join (String Py.NL EmptyString) lines) →
  (∃ line, line ∈ Util.file_lines (Py.join (String Py.NL EmptyString) lines)
           ∧ Py.contains Util.MAGIC_NAME line = true) →
  let '(r, w') := Util._safe_overwrite env lines fname w in
  (∃ new, trace w' = trace w ++ new ∧ forallb silent new = true)
  ∧ (∀ p, p ≠ Os.abspath env (Util.out_tempname env) →
          files w' !! p = files w !! p)
  ∧ (files w !! Os.abspath env (Util.tmpdir env) = None →
     Os.abspath env (Util.out_tempname env) ∉ dirs w →
     r = Ok tt ∧ files w' !! Os.abspath env (Util.out_tempname env) = None).
Proof.
  intros Hfile Hmagic. apply has_magic_true in Hmagic.
  set (text := Py.join (String Py.NL EmptyString) lines) in *.
  set (tmp := Os.abspath env (Util.out_tempname env)).
  set (dst := Os.abspath env fname) in *.
  assert (Os.is_file env fname w = true) as Hisf.
  { apply bool_decide_eq_true_2. fold dst. eauto. }
  unfold Util._safe_overwrite. fold text.
  rewrite bind_run, path_exists_run, Hisf. cbn [orb].
  rewrite bind_run, fmap_run, (read_run _ _ _ Hfile), Hmagic. cbn [negb].
  rewrite bind_run, path_isdir_run.
  (* what happens once the temporary directory is there *)
  assert (∀ w1 : World,
    files w1 = files w →
    let '(r, w') :=
      (Os.write env (Util.out_tempname env) text;;
       there ← Os.path_exists env fname;
       if there : bool then
         same ← Os.filecmp_cmp env (Util.out_tempname env) fname;
         if same : bool then
           Os.unlink env (Util.out_tempname env);;
           LOG_info [Repr (VStr fname); Txt " is the same"]
         else
           yn ← Os.input env [Txt "Update "; Repr (VStr fname); Txt "?: "];
           if negb (String.eqb (Py.lower yn) "y") then
             Os.unlink env (Util.out_tempname env);;
             LOG_info [Txt "User requested not to overwrite"]
           else Util.replace_file env fname
       else Util.replace_file env fname) w1 in
    (∃ new, trace w' = trace w1 ++ new ∧ forallb silent new = true)
    ∧ (∀ p, p ≠ tmp → files w' !! p = files w !! p)
    ∧ (tmp ∉ dirs w1 → r = Ok tt ∧ files w' !! tmp = None)) as Hrest.
  { intros w1 Hw1. rewrite bind_run. unfold Os.write.
    destruct (Os.is_dir env (Util.out_tempname env) w1) eqn:Hd.
    { split; [exists []; by rewrite app_nil_r |].
      split; [intros p _; by rewrite Hw1 |].
      intros Hn. by apply bool_decide_eq_true_1 in Hd. }
    fold tmp. set (w2 := record (EvWrite tmp) (set_files (insert tmp text) w1)).
    assert (files w2 = <[tmp:=text]> (files w)) as Hw2 by (cbn; by rewrite Hw1).
    assert (files w2 !! tmp = Some text) as Htmp2
      by (rewrite Hw2; apply lookup_insert_eq).
    assert (files w2 !! dst = Some text) as Hdst2.
    { rewrite Hw2. destruct (decide (tmp = dst)) as [->|Hne].
      - apply lookup_insert_eq.
      - by rewrite lookup_insert_ne. }
    rewrite bind_run, path_exists_run.
    assert (Os.is_file env fname w2 = true) as ->.
    { apply bool_decide_eq_true_2. fold dst. rewrite Hdst2. eauto. }
    cbn [orb]. rewrite bind_run.
    rewrite (filecmp_run _ _ _ _ _ Htmp2 Hdst2).
    rewrite String.eqb_refl. rewrite bind_run. unfold Os.unlink.
    assert (Os.is_file env (Util.out_tempname env) w2 = true) as ->.
    { apply bool_decide_eq_true_2. fold tmp. rewrite Htmp2. eauto. }
    fold tmp. unfold LOG_info. rewrite emit_run.
    split; [| split].
    - eexists [EvWrite tmp; EvUnlink tmp; EvLog _].
      split; [cbn; by rewrite <- !app_assoc | reflexivity].
    - intros p Hp. cbn. rewrite Hw1.
      by rewrite lookup_delete_ne, lookup_insert_ne.
    - intros _. split; [done |]. cbn. apply lookup_delete_eq. }
  destruct (Os.is_dir env (Util.tmpdir env) w) eqn:Hisdir; cbn [negb].
  - rewrite bind_run, ret_run.
    specialize (Hrest w eq_refl).
    match type of Hrest with (let '(_, _) := ?run in _) => destruct run as [r w'] end.
    destruct Hrest as (Htr & Hfr & Hok). auto.
  - rewrite bind_run. unfold LOG_info at 1. rewrite bind_run, emit_run.
    unfold Os.makedirs.
    set (w0 := record (EvLog [Txt "Makeing directory "; Repr (VStr (Util.tmpdir env))]) w).
    replace (Os.is_dir env (Util.tmpdir env) w0) with false
      by (symmetry; exact Hisdir).
    rewrite orb_false_r.
    destruct (Os.is_file env (Util.tmpdir env) w0) eqn:Hf.
    + split; [by exists [EvLog [Txt "Makeing directory "; Repr (VStr (Util.tmpdir env))]] |].
      split; [done |].
      intros Hnone _. apply bool_decide_eq_true_1 in Hf.
      change (is_Some (files w !! Os.abspath env (Util.tmpdir env))) in Hf.
      rewrite Hnone in Hf. by apply is_Some_None in Hf.
    + set (w1 := record (EvMakedirs _) _).
      specialize (Hrest w1 eq_refl).
      match type of Hrest with (let '(_, _) := ?run in _) => destruct run as [r w'] end.
      destruct Hrest as ((new & Htr & Hs) & Hfr & Hok).
      split; [| split; [done |]].
      * exists (EvLog [Txt "Makeing directory "; Repr (VStr (Util.tmpdir env))]
                :: EvMakedirs (Os.abspath env (Util.tmpdir env)) :: new).
        split; [| done]. rewrite Htr. cbn. by rewrite <- !app_assoc.
      * intros _ Hnd. apply Hok. cbn.
        rewrite not_elem_of_union, not_elem_of_singleton.
        split; [apply abspath_out_tempname | done].
Qed.

End SafeOverwriteSame.

(** A generated README that is rendered again with the same lines. *)
Lemma safe_overwrite_identical_witness :
  let '(r, w') := Util._safe_overwrite Scenario.env0 Scenario.generated_lines
                    "README.rst" Scenario.w_same in
  (∃ new, trace w' = trace Scenario.w_same ++ new ∧ forallb silent new = true)
  ∧ (∀ p, p ≠ Os.abspath Scenario.env0 (Util.out_tempname Scenario.env0) →
          files w' !! p = files Scenario.w_same !! p)
  ∧ (files Scenario.w_same !! Os.abspath Scenario.env0 (Util.tmpdir Scenario.env0) = None →
     Os.abspath Scenario.env0 (Util.out_tempname Scenario.env0) ∉ dirs Scenario.w_same →
     r = Ok tt
     ∧ files w' !! Os.abspath Scenario.env0 (Util.out_tempname Scenario.env0) = None).
Proof.
  apply (safe_overwrite_identical Scenario.env0 Scenario.generated_lines
           "README.rst" Scenario.w_same).
  - by vm_compute.
  - exists marker_line. split; [| reflexivity].
    change (marker_line ∈ ["Title"; EmptyString; marker_line]).
    do 2 apply list_elem_of_further. apply list_elem_of_here.
Defined.

(** In that world the writer does return, and the README is as it was. *)
Example identical_readme_untouched :
  (Util._safe_overwrite Scenario.env0 Scenario.generated_lines "README.rst"
     Scenario.w_same).1 = Ok tt
  ∧ files (Util._safe_overwrite Scenario.env0 Scenario.generated_lines "README.rst"
             Scenario.w_same).2 = files Scenario.w_same
  ∧ forallb silent (trace (Util._safe_overwrite Scenario.env0 Scenario.generated_lines
                             "README.rst" Scenario.w_same).2) = true.
Proof. by vm_compute. Qed.

(** ** The license table *)
Section LicenseTable.
Variable env : Env.

Lemma find_first {A} (P : A → bool) (before after : list A) (x : A) :
  (∀ y, y ∈ before → P y = false) → P x = true →
  List.find P (before ++ x :: after) = Some x.
Proof.
  intros Hbefore Hx. induction before as [|y before IH]; cbn.
  - by rewrite Hx.
  - rewrite (Hbefore y) by constructor.
    apply IH. intros z Hz. apply Hbefore. by constructor.
Qed.

Lemma find_nothing {A} (P : A → bool) (l : list A) :
  (∀ y, y ∈ l → P y = false) → List.find P l = None.
Proof.
  intros Hl. induction l as [|y l IH]; cbn; [done |].
  rewrite (Hl y) by constructor.
  apply IH. intros z Hz. apply Hl. by constructor.
Qed.

(** C7.  A license text in which none of the table's keys is found makes
    [out_license] raise its exception at once: the world is as it was, so
    nothing has been fetched, logged or written.  When a key is found, the
    rule of the first such key in the order of the table is the one
    [out_license] goes on with. *)
Theorem out_license_first_match (setup : Documents.Setup) (w : World) :
  ((∀ entry, entry ∈ Documents.LICENSES →
      Documents.matches entry.1 (Documents.license setup) Re.ignorecase = false) →
   Documents.out_license env setup w =
     (Raise (DocumentsException
               [Txt "Unknown lic_text "; Repr (VStr (Documents.license setup))]), w))
  ∧ (∀ before key info after,
       Documents.LICENSES = before ++ (key, info) :: after →
       (∀ entry, entry ∈ before →
          Documents.matches entry.1 (Documents.license setup) Re.ignorecase = false) →
       Documents.matches key (Documents.license setup) Re.ignorecase = true →
       Documents.to_fetch (Documents.license setup) = Some info
       ∧ Documents.out_license env setup w = Documents.write_license env setup info w).
Proof.
  split.
  - intros Hnone. unfold Documents.out_license, Documents.to_fetch.
    by rewrite find_nothing.
  - intros before key info after Htable Hbefore Hkey.
    assert (Documents.to_fetch (Documents.license setup) = Some info) as Hfetch.
    { unfold Documents.to_fetch. rewrite Htable.
      by rewrite (find_first _ before after (key, info)). }
    split; [done |].
    unfold Documents.out_license. by rewrite Hfetch.
Qed.

End LicenseTable.

(** [LGPL 3] names the LGPL, and the key [GPL.*3] stands before [LGPL]. *)
Example to_fetch_lgpl3 :
  Documents.to_fetch "LGPL 3"
  = Some ("http://www.gnu.org/licenses/gpl-3.0.txt", "END OF TERMS.+", EmptyString).
Proof. reflexivity. Qed.

Lemma out_license_first_match_witness :
  Documents.out_license Scenario.env0 Scenario.setup_unknown Scenario.w0
    = (Raise (DocumentsException [Txt "Unknown lic_text "; Repr (VStr "WTFPL")]),
       Scenario.w0)
  ∧ Documents.to_fetch "Apache 2.0"
    = Some ("apache.rot13", "\[yyyy\]", "\[name of copyright owner\]")
  ∧ Documents.out_license Scenario.env0 Scenario.setup0 Scenario.w0
    = Documents.write_license Scenario.env0 Scenario.setup0
        ("apache.rot13", "\[yyyy\]", "\[name of copyright owner\]") Scenario.w0.
Proof.
  split.
  - apply (out_license_first_match Scenario.env0 Scenario.setup_unknown Scenario.w0).
    intros entry Hin.
    repeat (apply elem_of_cons in Hin as [->|Hin]; [reflexivity |]).
    by apply elem_of_nil in Hin.
  - apply (proj2 (out_license_first_match Scenario.env0 Scenario.setup0 Scenario.w0)
             [] "Apache" _ (tail Documents.LICENSES)).
    + reflexivity.
    + intros entry Hin. by apply elem_of_nil in Hin.
    + reflexivity.
Defined.

(** ** Formatting and substrings *)

Lemma startswith_app (a r : string) : Py.startswith a (a +:+ r) = true.
Proof.
  induction a as [|c a IH]; [by destruct r |].
  rewrite app_cons. cbn. by rewrite Ascii.eqb_refl, IH.
Qed.

Lemma contains_app_l (a r : string) : Py.contains a (a +:+ r) = true.
Proof.
  destruct (a +:+ r) eqn:E; cbn; rewrite <- E, startswith_app; done.
Qed.

Lemma contains_cons (a : string) (c : ascii) (r : string) :
  Py.contains a r = true → Py.contains a (String c r) = true.
Proof. intros H. cbn [Py.contains]. rewrite H. apply orb_true_r. Qed.

Lemma format_go_contains (n : nat) (fmt a r : string) :
  (String.length fmt ≤ n)%nat →
  Py.format_go fmt (Some a) = Some r → Py.contains a r = true.
Proof.
  revert fmt r. induction n as [|n IH]; intros fmt r Hlen Hfmt.
  - destruct fmt; [discriminate Hfmt | cbn in Hlen; lia].
  - destruct fmt as [|c fmt1]; [discriminate Hfmt |].
    cbn [Py.format_go] in Hfmt. cbn in Hlen.
    destruct (Ascii.eqb c "%").
    + destruct fmt1 as [|d fmt2]; [discriminate Hfmt |]. cbn in Hlen.
      destruct (Ascii.eqb d "s").
      * destruct (Py.format_go fmt2 None) as [r'|]; [| discriminate Hfmt].
        injection Hfmt as <-. apply contains_app_l.
      * destruct (Ascii.eqb d "%"); [| discriminate Hfmt].
        destruct (Py.format_go fmt2 (Some a)) as [r'|] eqn:E; [| discriminate Hfmt].
        injection Hfmt as <-. apply contains_cons. apply (IH fmt2); [lia | done].
    + destruct (Py.format_go fmt1 (Some a)) as [r'|] eqn:E; [| discriminate Hfmt].
      injection Hfmt as <-. apply contains_cons. apply (IH fmt1); [lia | done].
Qed.

Lemma format_contains (fmt a r : string) :
  Py.format fmt a = Some r → Py.contains a r = true.
Proof. apply (format_go_contains (String.length fmt)). lia. Qed.

(** ** The generated documents *)
Section Documents.
Variable env : Env.

Lemma gettext_run (message : string) (w : World) :
  Os.gettext env message w = (Ok (ugettext env (underscore w) message), w).
Proof. reflexivity. Qed.

Lemma raise_run {A} (e : exn) (w : World) : raise (A := A) e w = (Raise e, w).
Proof. reflexivity. Qed.


Lemma find_license_run (w : World) :
  Documents._find_license env w = (Ok (license_found env w), w).
Proof.
  unfold Documents._find_license, license_found, Os.listdir.
  rewrite bind_run. by destruct (List.find _ _).
Qed.

Lemma format_run (fmt arg : string) (w : World) :
  Os.format fmt arg w =
  match Py.format fmt arg with
  | Some s => (Ok s, w)
  | None => (Raise TypeError, w)
  end.
Proof. unfold Os.format. by destruct (Py.format fmt arg). Qed.

End Documents.

(** Runs a document renderer in a hypothesis: every step is taken, every
    test and every formatting is split into its cases. *)
Ltac render H :=
  repeat first
    [ rewrite bind_run in H
    | rewrite ret_run in H
    | rewrite gettext_run in H
    | rewrite find_license_run in H
    | rewrite format_run in H
    | rewrite emit_run in H
    | progress unfold LOG_info in H
    | match type of H with
      | context [match Py.format ?f ?a with _ => _ end] =>
          let E := fresh "Hformat" in destruct (Py.format f a) eqn:E
      | context [if ?b then _ else _] => destruct b
      | context [match Documents.DEPENDS ?s with _ => _ end] =>
          destruct (Documents.DEPENDS s)
      end
    | discriminate H ].

Section MarkerLine.
Variable env : Env.

Lemma last_three (l : list string) (a b c : string) :
  last (l ++ [a; b; c]) = Some c.
Proof. by rewrite last_app. Qed.

Lemma last_two (l : list string) (a b : string) : last (l ++ [a; b]) = Some b.
Proof. by rewrite last_app. Qed.

Lemma readme_last (setup : Documents.Setup) (w w' : World) (lines : list string) :
  Documents._readme_lines env setup w = (Ok lines, w') →
  ∃ line, last lines = Some line
          ∧ Py.format (generated_by env w) Util.MAGIC_NAME = Some line.
Proof.
  intros H. unfold Documents._readme_lines in H.
  render H;
    match type of H with
    | (Ok ?l, _) = _ => assert (lines = l) as -> by congruence
    end;
    eexists; (split; [apply last_three | unfold generated_by; eassumption]).
Qed.

Lemma install_last (setup : Documents.Setup) (w w' : World) (lines : list string) :
  Documents._install_lines env setup w = (Ok lines, w') →
  ∃ line, last lines = Some line
          ∧ Py.format (generated_by env w) Util.MAGIC_NAME = Some line.
Proof.
  intros H. unfold Documents._install_lines in H.
  render H;
    match type of H with
    | (Ok ?l, _) = _ => assert (lines = l) as -> by congruence
    end;
    eexists; (split; [apply last_two | unfold generated_by; eassumption]).
Qed.

(** With a catalogue that translates nothing, formatting cannot fail. *)
Lemma readme_returns (setup : Documents.Setup) (w : World) :
  (∀ message, ugettext env (underscore w) message = message) →
  ∃ lines w', Documents._readme_lines env setup w = (Ok lines, w').
Proof.
  intros Hid.
  destruct (Documents._readme_lines env setup w) as [r w'] eqn:H.
  unfold Documents._readme_lines in H.
  render H; cbn [underscore record] in *;
    repeat match goal with
           | E : Py.format (ugettext _ _ _) ?a = None |- _ =>
               rewrite Hid in E; revert E; generalize a; intros x E;
               by vm_compute in E
           end;
    injection H as <- <-; by eexists _, _.
Qed.

Lemma install_returns (setup : Documents.Setup) (w : World) :
  (∀ message, ugettext env (underscore w) message = message) →
  ∃ lines w', Documents._install_lines env setup w = (Ok lines, w').
Proof.
  intros Hid.
  destruct (Documents._install_lines env setup w) as [r w'] eqn:H.
  unfold Documents._install_lines in H.
  render H; cbn [underscore record] in *;
    repeat match goal with
           | E : Py.format (ugettext _ _ _) ?a = None |- _ =>
               rewrite Hid in E; revert E; generalize a; intros x E;
               by vm_compute in E
           end;
    injection H as <- <-; by eexists _, _.
Qed.

End MarkerLine.

Section GeneratedDocuments.
Variable env : Env.

Lemma set_locale_raises (setup : Documents.Setup) (lang : string) (w : World) :
  Documents._set_locale env setup lang w = (Raise TypeError, w).
Proof. reflexivity. Qed.

Lemma langs_returns (setup : Documents.Setup) (w : World) :
  ∃ w', Documents._langs setup w = (Ok (languages setup), w') ∧ unchanged w w'.
Proof.
  unfold Documents._langs, languages.
  destruct (Documents.LANGS setup) as [langs |].
  - unfold LOG_info. rewrite bind_run, emit_run, ret_run. by eexists.
  - by eexists.
Qed.

Lemma out_readme_stops (setup : Documents.Setup) (w : World) :
  ∃ w', Documents.out_readme env setup w = (Raise TypeError, w') ∧ unchanged w w'.
Proof.
  destruct (langs_returns setup w) as (w' & Hlangs & Hsame).
  exists w'. split; [| done].
  unfold Documents.out_readme. rewrite bind_run, Hlangs, bind_run.
  unfold languages. cbn [for_each]. by rewrite bind_run, bind_run, set_locale_raises.
Qed.

Lemma out_install_stops (setup : Documents.Setup) (w : World) :
  ∃ w', Documents.out_install env setup w = (Raise TypeError, w') ∧ unchanged w w'.
Proof.
  destruct (langs_returns setup w) as (w' & Hlangs & Hsame).
  exists w'. split; [| done].
  unfold Documents.out_install. rewrite bind_run, Hlangs, bind_run.
  unfold languages. cbn [for_each]. by rewrite bind_run, bind_run, set_locale_raises.
Qed.

Lemma main_stops (setup : Documents.Setup) (w : World) :
  ∃ w', Documents.main env setup w = (Raise TypeError, w') ∧ unchanged w w'.
Proof.
  destruct (out_readme_stops setup w) as (w' & Hrun & Hsame).
  exists w'. split; [| done].
  unfold Documents.main. by rewrite bind_run, Hrun.
Qed.

(** The sources of the license table: the texts that come with the module
    are all stored in ROT13, the others come from the network. *)
Lemma to_fetch_source (lic_text source y_regex name_regex : string) :
  Documents.to_fetch lic_text = Some (source, y_regex, name_regex) →
  Py.startswith "http" source = true
  ∨ (Py.startswith "http" source = false ∧ Py.endswith "rot13" source = true).
Proof.
  unfold Documents.to_fetch.
  destruct (List.find _ Documents.LICENSES) as [[key info] |] eqn:Hfind; [| done].
  apply find_some in Hfind as [Hin _]. cbn. intros [= ->].
  unfold Documents.LICENSES in Hin.
  repeat (destruct Hin as [[= <- <- <-] | Hin]; [by vm_compute; auto |]).
  destruct Hin.
Qed.

Lemma sub_bytes_raises (regex repl b : string) (w : World) :
  ∃ e, Documents.sub env regex repl (Bytes b) w = (Raise e, w).
Proof.
  unfold Documents.sub.
  destruct (Py.contains _ repl); [| by eexists].
  destruct (re_sub env regex repl EmptyString); by eexists.
Qed.

Lemma out_license_stops (setup : Documents.Setup) (w : World) :
  urlopen_gives_str env = false →
  ∃ e w', Documents.out_license env setup w = (Raise e, w') ∧ unchanged w w'.
Proof.
  intros Hbytes. unfold Documents.out_license.
  destruct (Documents.to_fetch (Documents.license setup))
    as [[[source y_regex] name_regex] |] eqn:Hrule; [| by eexists _, _].
  unfold Documents.write_license.
  rewrite bind_run, find_license_run, bind_run.
  destruct (negb (truthy (VStr (license_found env w)))); unfold LOG_info;
    rewrite bind_run, emit_run, ret_run, bind_run;
    unfold Documents.license_text;
    (destruct (to_fetch_source _ _ _ _ Hrule) as [Hhttp | [Hhttp Hrot]];
     rewrite Hhttp;
     [ unfold Os.urlopen_read; rewrite Hbytes;
       match goal with
       | |- context [urlopen_answer env ?h source] =>
           destruct (urlopen_answer env h source) as [body | |]
       end; [| by eexists _, _ | by eexists _, _];
       rewrite bind_run; unfold Os.year at 1; rewrite bind_run;
       match goal with
       | |- context [Documents.sub env ?r ?y (Bytes ?b) ?w0] =>
           destruct (sub_bytes_raises r y b w0) as [e ->]
       end; by eexists _, _
     | rewrite bind_run; unfold Os.read;
       match goal with
       | |- context [files ?w0 !! ?p] => destruct (files w0 !! p)
       end; [| by eexists _, _];
       rewrite Hrot; by eexists _, _ ]).
Qed.

(** C4 fails on the code.  The renderers do their part: whenever the lines
    of a README or of an INSTALL document are rendered, the last one is the
    message [-- file generated by %s.] of the active catalogue, formatted
    with the marker, so it contains the marker the safe writer looks for;
    with a catalogue that translates nothing both are rendered and end
    with the marker line itself.  But no document is generated:
    [out_readme] and [out_install] end with the [TypeError] of
    [_set_locale] before the first document is rendered, and [out_license],
    whose lines would be those of the license text alone, ends with an
    exception before it reaches the writer ([LookupError] for a text that
    comes with the module, the error of the network or [TypeError] for the
    bytes read from it).  In each case no file and no directory has
    changed. *)
Theorem documents_marker_line (setup : Documents.Setup) (w : World) :
  (∀ lines w',
     Documents._readme_lines env setup w = (Ok lines, w')
     ∨ Documents._install_lines env setup w = (Ok lines, w') →
     ∃ line, last lines = Some line
             ∧ Py.format (generated_by env w) Util.MAGIC_NAME = Some line
             ∧ Py.contains Util.MAGIC_NAME line = true)
  ∧ ((∀ message, ugettext env (underscore w) message = message) →
     (∃ lines w', Documents._readme_lines env setup w = (Ok lines, w')
                  ∧ last lines = Some marker_line)
     ∧ (∃ lines w', Documents._install_lines env setup w = (Ok lines, w')
                    ∧ last lines = Some marker_line))
  ∧ (∃ w', Documents.out_readme env setup w = (Raise TypeError, w') ∧ unchanged w w')
  ∧ (∃ w', Documents.out_install env setup w = (Raise TypeError, w') ∧ unchanged w w')
  ∧ (urlopen_gives_str env = false →
     ∃ e w', Documents.out_license env setup w = (Raise e, w') ∧ unchanged w w').
Proof.
  assert (∀ lines w',
     Documents._readme_lines env setup w = (Ok lines, w')
     ∨ Documents._install_lines env setup w = (Ok lines, w') →
     ∃ line, last lines = Some line
             ∧ Py.format (generated_by env w) Util.MAGIC_NAME = Some line
             ∧ Py.contains Util.MAGIC_NAME line = true) as Hlast.
  { intros lines w' [H | H];
      [apply readme_last in H | apply install_last in H];
      destruct H as (line & Hl & Hf); exists line;
      (split; [done |]); (split; [done |]); by apply format_contains in Hf. }
  split; [exact Hlast |]. split.
  { intros Hid.
    assert (∀ line, Py.format (generated_by env w) Util.MAGIC_NAME = Some line →
                    line = marker_line) as Hline.
    { intros line. unfold generated_by. rewrite Hid. vm_compute. congruence. }
    split.
    + destruct (readme_returns env setup w Hid) as (lines & w' & Hrun).
      exists lines, w'. split; [done |].
      destruct (Hlast lines w' (or_introl Hrun)) as (line & Hl & Hf & _).
      by rewrite Hl, (Hline line Hf).
    + destruct (install_returns env setup w Hid) as (lines & w' & Hrun).
      exists lines, w'. split; [done |].
      destruct (Hlast lines w' (or_intror Hrun)) as (line & Hl & Hf & _).
      by rewrite Hl, (Hline line Hf). }
  split; [apply out_readme_stops |].
  split; [apply out_install_stops |].
  apply out_license_stops.
Qed.

End GeneratedDocuments.

(** The script in a fresh project directory, for the project under the
    Apache license and under the GPL: nothing is generated. *)
Example nothing_is_generated :
  (Documents.main Cases.env_urllib Scenario.setup0 Scenario.w0).1 = Raise TypeError
  ∧ files (Documents.main Cases.env_urllib Scenario.setup0 Scenario.w0).2
    = files Scenario.w0
  ∧ (Documents.out_license Cases.env_urllib Scenario.setup0 Scenario.w0).1
    = Raise LookupError
  ∧ files (Documents.out_license Cases.env_urllib Scenario.setup0 Scenario.w0).2
    = files Scenario.w0
  ∧ (Documents.out_license Cases.env_urllib Scenario.setup_gpl Scenario.w0).1
    = Raise TypeError
  ∧ files (Documents.out_license Cases.env_urllib Scenario.setup_gpl Scenario.w0).2
    = files Scenario.w0.
Proof. repeat split; by vm_compute. Qed.

(** ** Running the generator twice *)
Section Respects.
Variable env : Env.
Variable R : World → World → Prop.
Hypothesis R_record : ∀ e w1 w2, R w1 w2 → R (record e w1) (record e w2).
Hypothesis R_underscore : ∀ w1 w2, R w1 w2 → underscore w1 = underscore w2.







End Respects.

Section TwoRuns.
Variable env : Env.







End TwoRuns.

(** ** The feed's entries *)



Section Capture.
Context {R : Type}.
Variable ok : ascii → bool.
Variable k : string → option R.

Lemma once_inv (s : string) (r : R) :
  Re.once ok k s = Some r → ∃ s', k s' = Some r.
Proof.
  destruct s as [|c s]; cbn; [done |].
  destruct (ok c); [eauto | done].
Qed.

Lemma greedy_inv (s : string) (r : R) :
  Re.greedy ok k s = Some r → ∃ s', k s' = Some r.
Proof.
  induction s as [|c s IH]; cbn; [eauto |].
  destruct (ok c); [| eauto].
  destruct (Re.greedy ok k s) as [r'|]; [| eauto].
  intros [= <-]. by apply IH.
Qed.

Lemma nongreedy_inv (s : string) (r : R) :
  Re.nongreedy ok k s = Some r → ∃ s', k s' = Some r.
Proof.
  induction s as [|c s IH]; cbn.
  - destruct (k EmptyString) eqn:E; [| done]. intros [= <-]. eauto.
  - destruct (k (String c s)) eqn:E; [intros [= <-]; eauto |].
    destruct (ok c); [exact IH | done].
Qed.

End Capture.

Lemma match_here_captures (fl : Re.flags) (re : Re.regex) (g cap : option string)
    (s rest : string) (c : option string) :
  Re.match_here fl re g cap s = Some (c, rest) →
  captures re (given g) (given cap) = true → is_Some c.
Proof.
  revert g cap s. induction re as [|i re IH]; intros g cap s Hm Hc.
  - cbn in Hm, Hc. injection Hm as <- _. by destruct cap.
  - destruct i as [cs q | |]; cbn [Re.match_here captures] in Hm, Hc.
    + assert (∃ s', Re.match_here fl re g cap s' = Some (c, rest)) as [s' Hs'].
      { destruct q.
        - by apply once_inv in Hm.
        - by apply greedy_inv in Hm.
        - apply once_inv in Hm as [s1 Hm]. by apply greedy_inv in Hm.
        - apply once_inv in Hm as [s1 Hm]. by apply nongreedy_inv in Hm. }
      by apply (IH g cap s').
    + by apply (IH (Some s) cap s).
    + apply (IH g (Re.close_group g cap s) s); [done |].
      by destruct g, cap.
Qed.

Lemma search_captures (fl : Re.flags) (pattern text : string) (m : Re.match_obj) :
  captures (Re.compile pattern) false false = true →
  Re.search pattern text fl = Some m → is_Some (Re.group1 m).
Proof.
  intros Hc. unfold Re.search. induction text as [|c text IH]; cbn [Re.search_re].
  - unfold Re.match_at.
    destruct (Re.match_here _ _ _ _ _) as [[cap rest]|] eqn:E; [| done].
    intros [= <-]. cbn. by apply match_here_captures in E.
  - unfold Re.match_at at 1.
    destruct (Re.match_here _ _ _ _ _) as [[cap rest]|] eqn:E; [| exact IH].
    intros [= <-]. cbn. by apply match_here_captures in E.
Qed.

Lemma safe_search_None (fl : Re.flags) (pattern text : string) :
  captures (Re.compile pattern) false false = true →
  Googlecode._safe_search pattern text fl = None ↔ Re.search pattern text fl = None.
Proof.
  intros Hc. unfold Googlecode._safe_search.
  destruct (Re.search pattern text fl) as [m|] eqn:E; [| done].
  destruct (search_captures fl pattern text m Hc E) as [g Hg].
  rewrite Hg. split; discriminate.
Qed.

Section Feed.
Variable env : Env.

(** C8 fails on the code.  When the feed is fetched, what [read()] gave
    decides: with the [bytes] that [urllib] gives, line 33 hands them to a
    pattern that is a [str], and [get_download_list] ends with [TypeError]
    without a single record; only a body that is a [str] is parsed, and
    then the list has one record for every entry of exactly that body.  In
    such a record every field is found by a search of its own: a text
    field is [None] exactly when its own pattern is not found in the
    entry, the label list is empty when the pattern of the labels is not
    found and holds the words after [Labels:] otherwise; no field depends
    on whether another one was found. *)
Theorem feed_fields_independent (project : string) (w : World) :
  (∀ body,
     urlopen_answer env (trace w)
       ("http://code.google.com/feeds/p/" +:+ project +:+ "/downloads/basic")
     = Body body →
     Googlecode.get_download_list env project w
     = (if urlopen_gives_str env
        then Ok (Googlecode.entry_info project <$> Googlecode.entries body)
        else Raise TypeError,
        record (EvUrlopen ("http://code.google.com/feeds/p/" +:+ project
                             +:+ "/downloads/basic")) w))
  ∧ ∀ entry,
      (Googlecode.updated (Googlecode.entry_info project entry) = None
       ↔ Re.search Googlecode.re_updated entry Re.no_flags = None)
      ∧ (Googlecode.summary (Googlecode.entry_info project entry) = None
         ↔ Re.search Googlecode.re_title entry Re.no_flags = None)
      ∧ (Googlecode.fname (Googlecode.entry_info project entry) = None
         ↔ Re.search Googlecode.re_fname entry Re.no_flags = None)
      ∧ (Re.search Googlecode.re_labels entry Re.dotall = None →
         Googlecode.labels (Googlecode.entry_info project entry) = [])
      ∧ (∀ m, Re.search Googlecode.re_labels entry Re.dotall = Some m →
              ∃ text, Re.group1 m = Some text
                      ∧ Googlecode.labels (Googlecode.entry_info project entry)
                        = String.words text).
Proof.
  split.
  - intros body Hbody. unfold Googlecode.get_download_list.
    rewrite bind_run. unfold try_except, Os.urlopen_read. rewrite Hbody.
    by destruct (urlopen_gives_str env).
  - intros entry. cbn [Googlecode.entry_info Googlecode.updated Googlecode.summary
                        Googlecode.fname Googlecode.labels].
    split; [by apply safe_search_None |].
    split; [by apply safe_search_None |].
    split; [by apply safe_search_None |].
    split.
    + intros Hnone. unfold Googlecode._safe_search. by rewrite Hnone.
    + intros m Hm.
      destruct (search_captures Re.dotall Googlecode.re_labels entry m eq_refl Hm)
        as [text Htext].
      exists text. split; [done |].
      unfold Googlecode._safe_search. rewrite Hm, Htext. cbn [of_opt truthy default].
      destruct (String.eqb text EmptyString) eqn:E; [| done].
      apply String.eqb_eq in E as ->. reflexivity.
Qed.

End Feed.

(** The feed of the two files read with [urllib]: no record at all. *)
Example feed_of_bytes :
  urlopen_answer Cases.env_urllib (trace Scenario.w_stale) Scenario.feed_url
  = Body Scenario.feed
  ∧ Googlecode.get_download_list Cases.env_urllib "pybdist" Scenario.w_stale
    = (Raise TypeError, record (EvUrlopen Scenario.feed_url) Scenario.w_stale).
Proof. split; reflexivity. Qed.

(** An entry without [<updated>]: that field is [None], the others are
    there. *)
Example entry_without_updated :
  Googlecode.entry_info "pybdist" Scenario.entry_b
  = {| Googlecode.project_name := "pybdist";
       Googlecode.updated := None;
       Googlecode.summary := Some "deb package";
       Googlecode.labels := ["Featured"];
       Googlecode.fname := Some "b.deb" |}.
Proof. reflexivity. Qed.

(** ** Details of one file *)


(** ** Checksums and downloads *)
Section MaybeDownload.
Variable env : Env.

(** C1 fails on the code.  Once the details are known, a file whose local
    checksum equals the remote one is downloaded again, one whose checksum
    differs is left alone, and a missing remote checksum ends in an
    [UnboundLocalError] before anything is downloaded. *)
Theorem maybe_download_file_inverted (project name dist_dir : string)
    (w w1 : World) (d : Googlecode.details) :
  Googlecode.get_file_details env project name w = (Ok d, w1) →
  (∀ data,
     truthy (of_opt (Googlecode.sha1 d)) = true →
     files w1 !! Os.abspath env (Path.join dist_dir name) = Some data →
     Googlecode.maybe_download_file env project name dist_dir w =
       if bool_decide (Some (sha1_hexdigest env data) = Googlecode.sha1 d)
       then (print [Txt "SHA1 checksums don't match, dowloading."];;
             Googlecode.download_file env project name dist_dir) w1
       else (Ok tt, w1))
  ∧ (truthy (of_opt (Googlecode.sha1 d)) = false →
     Googlecode.maybe_download_file env project name dist_dir w =
       (Raise (UnboundLocalError "hex_digest"), w1)).
Proof.
  intros Hd. split.
  - intros data Hsha Hfile. unfold Googlecode.maybe_download_file.
    rewrite bind_run, Hd, Hsha, !bind_run.
    unfold Os.read. rewrite Hfile. rewrite ret_run.
    by destruct (bool_decide _).
  - intros Hsha. unfold Googlecode.maybe_download_file.
    by rewrite bind_run, Hd, Hsha, bind_run, ret_run.
Qed.

End MaybeDownload.

(** The service has no page for [c.zip], so no checksum is known: the run
    ends with [UnboundLocalError].  And where the page of details reads
    as text, the local [a.zip] of [w_kept] has the checksum the service
    reports: the file is fetched again, up to the call of [file]. *)
Lemma maybe_download_file_inverted_witness :
  Googlecode.maybe_download_file Cases.env_urllib "pybdist" "c.zip" "dist"
    Scenario.w_kept
  = (Raise (UnboundLocalError "hex_digest"),
     record (EvUrlopen (Scenario.detail_url "c.zip"))
       (record (EvPrint [Txt "Checking SHA1 at ";
                         Repr (VStr (Scenario.detail_url "c.zip"))])
          Scenario.w_kept))
  ∧ (Googlecode.maybe_download_file Scenario.env0 "pybdist" "a.zip" "dist"
       Scenario.w_kept).1 = Raise (NameError "file")
  ∧ EvUrlopen (Scenario.file_url "a.zip")
      ∈ trace (Googlecode.maybe_download_file Scenario.env0 "pybdist" "a.zip" "dist"
                 Scenario.w_kept).2.
Proof.
  split.
  - apply (proj2 (maybe_download_file_inverted Cases.env_urllib "pybdist" "c.zip"
                    "dist" Scenario.w_kept _ _ eq_refl) eq_refl).
  - rewrite (proj1 (maybe_download_file_inverted Scenario.env0 "pybdist" "a.zip" "dist"
                      Scenario.w_kept _ _ eq_refl) "kept a.zip" eq_refl eq_refl).
    split; [reflexivity |].
    vm_compute. do 3 apply list_elem_of_further. apply list_elem_of_here.
Defined.

(** In [w_stale] the checksums differ: nothing is fetched but the page of
    details, and the stale file stays. *)
Example stale_file_not_downloaded :
  (Googlecode.maybe_download_file Scenario.env0 "pybdist" "a.zip" "dist"
     Scenario.w_stale).1 = Ok tt
  ∧ trace (Googlecode.maybe_download_file Scenario.env0 "pybdist" "a.zip" "dist"
             Scenario.w_stale).2
    = [EvPrint [Txt "Checking SHA1 at "; Repr (VStr (Scenario.detail_url "a.zip"))];
       EvUrlopen (Scenario.detail_url "a.zip")]
  ∧ files (Googlecode.maybe_download_file Scenario.env0 "pybdist" "a.zip" "dist"
             Scenario.w_stale).2 !! "/proj/dist/a.zip" = Some "stale a.zip".
Proof. by vm_compute. Qed.

(** ** Uploads *)
Section Uploads.
Variable env : Env.

(** [update_file] returns normally whatever the upload call answers. *)
Lemma update_file_returns (info : Googlecode.download)
    (dist_dir username password : string) (w : World) :
  ∃ args,
    Googlecode.update_file env info dist_dir username password w
    = (Ok tt, record (EvUpload args)
                (record (EvPrint [Txt "Updating ";
                                  Str (of_opt (Googlecode.fname info))]) w)).
Proof. by eexists. Qed.

(** [maybe_upload_file] does stop: when no checksum is known remotely and
    the upload gives no URL, it prints the status, the reason and the
    context, and exits with status -1. *)
Lemma maybe_upload_file_exits (project dist_dir name : string)
    (summary : option string) (labels : list string) (username password : string)
    (w w1 : World) (d : Googlecode.details) (status : Z) (reason : string)
    (url : option string) :
  Googlecode.get_file_details env project name w = (Ok d, w1) →
  truthy (of_opt (Googlecode.sha1 d)) = false →
  upload_answer env
    (trace w1 ++ [EvPrint [Txt "File not there, uploading "; Repr (VStr name); Txt "."]])
    {| up_file := Path.join dist_dir name; up_project_name := project;
       up_user_name := username; up_password := password;
       up_summary := summary; up_labels := labels |} = (status, reason, url) →
  truthy (of_opt url) = false →
  ∃ w', Googlecode.maybe_upload_file env project dist_dir name summary labels
          username password w = (Exit (-1), w')
        ∧ ∃ args, trace w' = trace w1 ++
            [EvPrint [Txt "File not there, uploading "; Repr (VStr name); Txt "."];
             EvUpload args;
             EvPrint [Repr (VInt status); Txt ", "; Repr (VStr reason)];
             EvPrint [Repr (VStr (Path.join dist_dir name)); Txt ", ";
                      Repr (VStr project); Txt ", "; Repr (of_opt summary);
                      Txt ", "; Repr (VList labels)]].
Proof.
  intros Hd Hsha Hup Hurl. unfold Googlecode.maybe_upload_file.
  rewrite bind_run, Hd, Hsha, bind_run, ret_run. cbn [negb orb].
  rewrite bind_run. unfold print at 1. rewrite emit_run.
  rewrite bind_run. unfold Os.upload. cbn [record trace]. rewrite Hup, Hurl.
  cbn [negb]. eexists. split; [reflexivity |].
  eexists. cbn. by rewrite <- !app_assoc.
Qed.

End Uploads.


(** ** Local files are never deleted *)
Section NeverDeletes.
Variable env : Env.


Lemma only_adds_refl (w w' : World) : files w' = files w → only_adds env w w'.
Proof. intros H p. left. by rewrite H. Qed.

Lemma only_adds_trans (w1 w2 w3 : World) :
  only_adds env w1 w2 → only_adds env w2 w3 → only_adds env w1 w3.
Proof.
  intros H12 H23 p. destruct (H23 p) as [H | H]; [| by right].
  rewrite H. apply H12.
Qed.

Lemma only_adds_is_Some (w w' : World) (p : string) :
  only_adds env w w' → is_Some (files w !! p) → is_Some (files w' !! p).
Proof.
  intros H Hp. destruct (H p) as [-> | (text & -> & _)]; [done | eauto].
Qed.

Lemma keeps_ret {A} (a : A) : keeps_files env (mret a).
Proof. intros w. by apply only_adds_refl. Qed.

Lemma keeps_bind {A B} (m : M A) (f : A → M B) :
  keeps_files env m → (∀ a, keeps_files env (f a)) → keeps_files env (m ≫= f).
Proof.
  intros Hm Hf w. rewrite bind_run. specialize (Hm w).
  destruct (m w) as [[a | e | n] w']; [| done | done].
  eapply only_adds_trans; [exact Hm | apply Hf].
Qed.

Lemma keeps_fmap {A B} (g : A → B) (m : M A) :
  keeps_files env m → keeps_files env (g <$> m).
Proof.
  intros Hm w. rewrite fmap_run. specialize (Hm w).
  by destruct (m w) as [[a | e | n] w'].
Qed.

Lemma keeps_try_except {A} (m h : M A) (handled : exn → bool) :
  keeps_files env m → keeps_files env h → keeps_files env (try_except m handled h).
Proof.
  intros Hm Hh w. unfold try_except. specialize (Hm w).
  destruct (m w) as [[a | e | n] w']; [done | | done].
  destruct (handled e); [| done].
  eapply only_adds_trans; [exact Hm | apply Hh].
Qed.

Lemma keeps_for_each {A} (l : list A) (body : A → M unit) :
  (∀ x, keeps_files env (body x)) → keeps_files env (for_each l body).
Proof.
  intros Hbody. induction l as [|x l IH]; cbn [for_each].
  - apply keeps_ret.
  - apply keeps_bind; [apply Hbody | intros _; exact IH].
Qed.

Lemma keeps_emit (e : event) : keeps_files env (emit e).
Proof. intros w. by apply only_adds_refl. Qed.

Lemma keeps_raise {A} (e : exn) : keeps_files env (raise (A := A) e).
Proof. intros w. by apply only_adds_refl. Qed.

Lemma keeps_sys_exit {A} (n : Z) : keeps_files env (sys_exit (A := A) n).
Proof. intros w. by apply only_adds_refl. Qed.

Lemma keeps_path_exists (p : string) : keeps_files env (Os.path_exists env p).
Proof. intros w. by apply only_adds_refl. Qed.

Lemma keeps_read (p : string) : keeps_files env (Os.read env p).
Proof.
  intros w. apply only_adds_refl. unfold Os.read. by destruct (files w !! _).
Qed.

Lemma keeps_makedirs (p : string) : keeps_files env (Os.makedirs env p).
Proof.
  intros w. apply only_adds_refl. unfold Os.makedirs. by destruct (_ || _).
Qed.

Lemma keeps_urlopen_read (url : string) : keeps_files env (Os.urlopen_read env url).
Proof.
  intros w. apply only_adds_refl. unfold Os.urlopen_read.
  by destruct (urlopen_answer env (trace w) url).
Qed.

Lemma keeps_upload (args : upload_args) : keeps_files env (Os.upload env args).
Proof. intros w. by apply only_adds_refl. Qed.

Lemma keeps_safe_search_in (regex : string) (haystack : data) (fl : Re.flags) :
  keeps_files env (Googlecode._safe_search_in regex haystack fl).
Proof. destruct haystack; [apply keeps_ret | apply keeps_raise]. Qed.

Lemma keeps_get_file_details (project name : string) :
  keeps_files env (Googlecode.get_file_details env project name).
Proof.
  unfold Googlecode.get_file_details, print.
  apply keeps_bind; [apply keeps_emit | intros _].
  apply keeps_bind.
  { apply keeps_try_except; [apply keeps_urlopen_read | apply keeps_ret]. }
  intros text.
  apply keeps_bind; [apply keeps_safe_search_in | intros sha1].
  apply keeps_bind; [apply keeps_safe_search_in | intros date].
  apply keeps_bind; [apply keeps_safe_search_in | intros download_count].
  apply keeps_bind; [| intros c; apply keeps_ret].
  destruct (truthy _); [| apply keeps_ret].
  destruct (Py.int _); [apply keeps_ret | apply keeps_raise].
Qed.

Lemma keeps_download_file (project name dist_dir : string) :
  keeps_files env (Googlecode.download_file env project name dist_dir).
Proof.
  unfold Googlecode.download_file.
  apply keeps_bind; [apply keeps_urlopen_read | intros text].
  apply keeps_bind; [apply keeps_path_exists | intros there].
  apply keeps_bind; [| intros _; apply keeps_raise].
  destruct (negb there); [apply keeps_makedirs | apply keeps_ret].
Qed.

Lemma keeps_maybe_download_file (project name dist_dir : string) :
  keeps_files env (Googlecode.maybe_download_file env project name dist_dir).
Proof.
  unfold Googlecode.maybe_download_file.
  apply keeps_bind; [apply keeps_get_file_details | intros d].
  apply keeps_bind.
  { destruct (truthy _); [| apply keeps_ret].
    apply keeps_bind; [apply keeps_read | intros data; apply keeps_ret]. }
  intros [digest |]; [| apply keeps_raise].
  destruct (bool_decide _); [| apply keeps_ret].
  apply keeps_bind; [apply keeps_emit | intros _].
  apply keeps_download_file.
Qed.

Lemma keeps_maybe_upload_file (project dist_dir name : string)
    (summary : option string) (labels : list string) (username password : string) :
  keeps_files env (Googlecode.maybe_upload_file env project dist_dir name summary
                 labels username password).
Proof.
  unfold Googlecode.maybe_upload_file, print.
  apply keeps_bind; [apply keeps_get_file_details | intros d].
  apply keeps_bind.
  { destruct (truthy _); [| apply keeps_ret].
    apply keeps_bind; [apply keeps_read | intros data; apply keeps_ret]. }
  intros digest. destruct (_ || _); [| apply keeps_emit].
  apply keeps_bind; [destruct (truthy _); apply keeps_emit | intros _].
  apply keeps_bind; [apply keeps_upload | intros [[status reason] url]].
  destruct (negb _); [| apply keeps_ret].
  apply keeps_bind; [apply keeps_emit | intros _].
  apply keeps_bind; [apply keeps_emit | intros _].
  apply keeps_sys_exit.
Qed.

Lemma keeps_update_file (info : Googlecode.download)
    (dist_dir username password : string) :
  keeps_files env (Googlecode.update_file env info dist_dir username password).
Proof.
  unfold Googlecode.update_file, print.
  apply keeps_bind; [apply keeps_emit | intros _].
  apply keeps_bind; [apply keeps_upload | intros answer; apply keeps_ret].
Qed.

Lemma keeps_remove_featured_labels (project user_name password : string)
    (except_list : option (list string)) :
  keeps_files env (Googlecode.remove_featured_labels env project user_name password
                 except_list).
Proof.
  unfold Googlecode.remove_featured_labels.
  apply keeps_bind.
  { apply keeps_fmap. unfold Googlecode.get_download_list.
    apply keeps_bind.
    { apply keeps_try_except; [apply keeps_urlopen_read | apply keeps_ret]. }
    intros text. apply keeps_bind; [| intros found; apply keeps_ret].
    destruct text; [apply keeps_ret | apply keeps_raise]. }
  intros lst. apply keeps_bind; [| intros _].
  - apply keeps_for_each. intros item. unfold Googlecode.fetch_item, print.
    destruct (Googlecode.excepted _ _); [apply keeps_ret |].
    destruct (Googlecode.fname item) as [name |]; [| apply keeps_raise].
    apply keeps_bind; [apply keeps_path_exists | intros there].
    destruct (negb there);
      (apply keeps_bind; [apply keeps_emit | intros _]).
    + apply keeps_download_file.
    + apply keeps_maybe_download_file.
  - apply keeps_for_each. intros item. unfold Googlecode.relabel_item, print.
    destruct (Googlecode.excepted _ _); [apply keeps_ret |].
    destruct (Googlecode.list_remove _ _); [| apply keeps_raise].
    apply keeps_bind; [apply keeps_emit | intros _].
    apply keeps_update_file.
Qed.

(** C10.  Whatever the network, the service and the operator do, and
    however the operation ends, each operation of the reconciler leaves
    every path of the file system either as it was or holding a text that
    was downloaded; so a file that was there before is there afterwards. *)
Theorem reconciler_never_deletes :
  (∀ project name dist_dir,
     keeps_files env (Googlecode.download_file env project name dist_dir))
  ∧ (∀ project name dist_dir,
       keeps_files env (Googlecode.maybe_download_file env project name dist_dir))
  ∧ (∀ project dist_dir name summary labels username password,
       keeps_files env (Googlecode.maybe_upload_file env project dist_dir name summary
                      labels username password))
  ∧ (∀ info dist_dir username password,
       keeps_files env (Googlecode.update_file env info dist_dir username password))
  ∧ (∀ project user_name password except_list,
       keeps_files env (Googlecode.remove_featured_labels env project user_name
                      password except_list))
  ∧ (∀ A (m : M A), keeps_files env m →
       ∀ w p, is_Some (files w !! p) → is_Some (files (m w).2 !! p)).
Proof.
  split; [exact keeps_download_file |].
  split; [exact keeps_maybe_download_file |].
  split; [exact keeps_maybe_upload_file |].
  split; [exact keeps_update_file |].
  split; [exact keeps_remove_featured_labels |].
  intros A m Hm w p. apply only_adds_is_Some, Hm.
Qed.

End NeverDeletes.

(** * Further properties *)

(** ** What a run may change *)
Section Touches.
Variable env : Env.

Lemma touches_weaken {A} (allowed allowed' : string → Prop) (m : M A) :
  (∀ p, allowed p → allowed' p) → touches_only allowed m → touches_only allowed' m.
Proof. intros Hsub Hm w p Hp. apply Hm. intros Ha. by apply Hp, Hsub. Qed.

Lemma touches_ret {A} (allowed : string → Prop) (a : A) :
  touches_only allowed (mret a).
Proof. by intros w p _. Qed.

Lemma touches_bind {A B} (allowed : string → Prop) (m : M A) (f : A → M B) :
  touches_only allowed m → (∀ a, touches_only allowed (f a)) →
  touches_only allowed (m ≫= f).
Proof.
  intros Hm Hf w p Hp. rewrite bind_run. specialize (Hm w p Hp).
  destruct (m w) as [[a | e | n] w']; [| done | done].
  by rewrite (Hf a w' p Hp).
Qed.

Lemma touches_fmap {A B} (allowed : string → Prop) (g : A → B) (m : M A) :
  touches_only allowed m → touches_only allowed (g <$> m).
Proof.
  intros Hm w p Hp. rewrite fmap_run. specialize (Hm w p Hp).
  by destruct (m w) as [[a | e | n] w'].
Qed.

Lemma touches_for_each {A} (allowed : string → Prop) (l : list A) (body : A → M unit) :
  (∀ x, x ∈ l → touches_only allowed (body x)) →
  touches_only allowed (for_each l body).
Proof.
  induction l as [|x l IH]; intros Hbody; cbn [for_each].
  - apply touches_ret.
  - apply touches_bind.
    + apply Hbody. constructor.
    + intros _. apply IH. intros y Hy. apply Hbody. by constructor.
Qed.

Lemma touches_try_except {A} (allowed : string → Prop) (m h : M A)
    (handled : exn → bool) :
  touches_only allowed m → touches_only allowed h →
  touches_only allowed (try_except m handled h).
Proof.
  intros Hm Hh w p Hp. unfold try_except. specialize (Hm w p Hp).
  destruct (m w) as [[a | e | n] w']; [done | | done].
  destruct (handled e); [| done]. by rewrite (Hh w' p Hp).
Qed.

(** What leaves the files alone touches nothing. *)
Lemma touches_nothing {A} (allowed : string → Prop) (m : M A) :
  (∀ w, files (m w).2 = files w) → touches_only allowed m.
Proof. intros Hm w p _. by rewrite Hm. Qed.

Lemma touches_emit (allowed : string → Prop) (e : event) :
  touches_only allowed (emit e).
Proof. by apply touches_nothing. Qed.

Lemma touches_raise {A} (allowed : string → Prop) (e : exn) :
  touches_only allowed (raise (A := A) e).
Proof. by apply touches_nothing. Qed.

Lemma touches_sys_exit {A} (allowed : string → Prop) (n : Z) :
  touches_only allowed (sys_exit (A := A) n).
Proof. by apply touches_nothing. Qed.

Lemma touches_path_exists (allowed : string → Prop) (p : string) :
  touches_only allowed (Os.path_exists env p).
Proof. by apply touches_nothing. Qed.

Lemma touches_path_isdir (allowed : string → Prop) (p : string) :
  touches_only allowed (Os.path_isdir env p).
Proof. by apply touches_nothing. Qed.

Lemma touches_read (allowed : string → Prop) (p : string) :
  touches_only allowed (Os.read env p).
Proof.
  apply touches_nothing. intros w. unfold Os.read. by destruct (files w !! _).
Qed.

Lemma touches_makedirs (allowed : string → Prop) (p : string) :
  touches_only allowed (Os.makedirs env p).
Proof.
  apply touches_nothing. intros w. unfold Os.makedirs. by destruct (_ || _).
Qed.

Lemma touches_filecmp (allowed : string → Prop) (a b : string) :
  touches_only allowed (Os.filecmp_cmp env a b).
Proof.
  apply touches_nothing. intros w. unfold Os.filecmp_cmp.
  destruct (files w !! _); [destruct (files w !! _) |];
    try done; by destruct (Os.is_dir _ _ _).
Qed.

Lemma touches_input (allowed : string → Prop) (prompt : list frag) :
  touches_only allowed (Os.input env prompt).
Proof. by apply touches_nothing. Qed.

Lemma touches_urlopen_read (allowed : string → Prop) (url : string) :
  touches_only allowed (Os.urlopen_read env url).
Proof.
  apply touches_nothing. intros w. unfold Os.urlopen_read.
  by destruct (urlopen_answer env (trace w) url).
Qed.

Lemma touches_upload (allowed : string → Prop) (args : upload_args) :
  touches_only allowed (Os.upload env args).
Proof. by apply touches_nothing. Qed.

Lemma touches_year (allowed : string → Prop) : touches_only allowed (Os.year env).
Proof. by apply touches_nothing. Qed.

Lemma touches_gettext (allowed : string → Prop) (message : string) :
  touches_only allowed (Os.gettext env message).
Proof. by apply touches_nothing. Qed.

Lemma touches_format (allowed : string → Prop) (fmt arg : string) :
  touches_only allowed (Os.format fmt arg).
Proof.
  apply touches_nothing. intros w. rewrite format_run.
  by destruct (Py.format fmt arg).
Qed.

Lemma touches_listdir (allowed : string → Prop) (d : string) :
  touches_only allowed (Os.listdir env d).
Proof. by apply touches_nothing. Qed.

Lemma touches_write (allowed : string → Prop) (p text : string) :
  allowed (Os.abspath env p) → touches_only allowed (Os.write env p text).
Proof.
  intros Ha w q Hq. unfold Os.write. destruct (Os.is_dir env p w); [done |].
  cbn. apply lookup_insert_ne. by intros <-.
Qed.

Lemma touches_unlink (allowed : string → Prop) (p : string) :
  allowed (Os.abspath env p) → touches_only allowed (Os.unlink env p).
Proof.
  intros Ha w q Hq. unfold Os.unlink. destruct (Os.is_file env p w); [| done].
  cbn. apply lookup_delete_ne. by intros <-.
Qed.

Lemma touches_rename (allowed : string → Prop) (src dst : string) :
  allowed (Os.abspath env src) → allowed (Os.abspath env dst) →
  touches_only allowed (Os.rename env src dst).
Proof.
  intros Hs Hd w q Hq. unfold Os.rename.
  destruct (files w !! Os.abspath env src); [| done].
  destruct (Os.is_dir env dst w); [done |].
  cbn. rewrite lookup_insert_ne by (by intros <-).
  apply lookup_delete_ne. by intros <-.
Qed.

End Touches.

(** Applies the rules of [touches_only] along the structure of a program,
    [known] first. *)
Ltac touching_by known :=
  repeat first
    [ known
    | apply touches_ret
    | apply touches_emit
    | apply touches_raise
    | apply touches_sys_exit
    | apply touches_path_exists
    | apply touches_path_isdir
    | apply touches_read
    | apply touches_makedirs
    | apply touches_filecmp
    | apply touches_input
    | apply touches_urlopen_read
    | apply touches_upload
    | apply touches_year
    | apply touches_gettext
    | apply touches_format
    | apply touches_listdir
    | match goal with
      | |- touches_only _ (mbind _ _) => apply touches_bind; [| intros ?]
      | |- touches_only _ (fmap _ _) => apply touches_fmap
      | |- touches_only _ (try_except _ _ _) => apply touches_try_except
      end
    | progress unfold LOG_info, print
    | match goal with
      | |- touches_only _ (if ?b then _ else _) => destruct b
      | |- touches_only _ (match ?o with Some _ => _ | None => _ end) => destruct o
      | |- touches_only _ (let '(_, _) := ?x in _) => destruct x
      end ].
Ltac touching := touching_by fail.

Section WriterFrame.
Variable env : Env.

Lemma replace_file_touches (fname : string) :
  touches_only (writer_paths env fname) (Util.replace_file env fname).
Proof.
  unfold Util.replace_file. touching;
    first [ apply touches_rename; [by left | by (right; right)]
          | apply touches_rename; [by (right; left) | by left] ].
Qed.

Lemma writer_frame (allowed : string → Prop) (lines : list string)
    (fname : string) :
  (∀ p, writer_paths env fname p → allowed p) →
  touches_only allowed (Util._safe_overwrite env lines fname).
Proof.
  intros Hsub. apply (touches_weaken (writer_paths env fname)); [exact Hsub |].
  unfold Util._safe_overwrite. touching;
    first [ apply replace_file_touches
          | apply touches_write; by (right; left)
          | apply touches_unlink; by (right; left)
          | apply touches_rename; [by left | by (right; right)]
          | apply touches_rename; [by (right; left) | by left] ].
Qed.

(** Whatever is at the destination, whatever the operator answers and
    however the run ends, the writer changes no file but the destination,
    its candidate [tmp.tmp] and the backup of the destination in its
    temporary directory. *)
Theorem safe_overwrite_touches (lines : list string) (fname : string) :
  touches_only (writer_paths env fname) (Util._safe_overwrite env lines fname).
Proof. by apply writer_frame. Qed.

End WriterFrame.

Section GeneratorFrame.
Variable env : Env.

(** The document generator changes no file but its destinations (a README
    and an INSTALL for every language, and the license file), the
    writer's candidate and the backups of the destinations; this holds for
    every answer of the operator and also when the run ends in an
    exception. *)
Theorem generator_touches (setup : Documents.Setup) :
  touches_only (document_paths env setup) (Documents.main env setup).
Proof.
  intros w p _. destruct (main_stops env setup w) as (w' & -> & Hfiles & _).
  cbn. by rewrite Hfiles.
Qed.

End GeneratorFrame.

(** ** The writer's three other ways *)
Section WriterCases.
Variable env : Env.











End WriterCases.

(** ** The feed and the details when the network fails *)
Section NetworkFailures.
Variable env : Env.

Lemma no_entries : Googlecode.entries EmptyString = [].
Proof. reflexivity. Qed.

(** Lines 24 to 29 and 196: when the feed cannot be fetched (any
    [URLError], an [HTTPError] included), the list of downloads is empty,
    and the re-labeling pass returns at once: it has fetched the feed and
    done nothing else. *)
Theorem feed_unavailable (project : string) (w : World) :
  (∀ text, urlopen_answer env (trace w)
             ("http://code.google.com/feeds/p/" +:+ project +:+ "/downloads/basic")
           ≠ Body text) →
  Googlecode.get_download_list env project w
    = (Ok [], record (EvUrlopen ("http://code.google.com/feeds/p/" +:+ project
                                   +:+ "/downloads/basic")) w)
  ∧ ∀ user_name password except_list,
      Googlecode.remove_featured_labels env project user_name password except_list w
      = (Ok tt, record (EvUrlopen ("http://code.google.com/feeds/p/" +:+ project
                                     +:+ "/downloads/basic")) w).
Proof.
  intros Hfail.
  assert (Googlecode.get_download_list env project w
    = (Ok [], record (EvUrlopen ("http://code.google.com/feeds/p/" +:+ project
                                   +:+ "/downloads/basic")) w)) as Hlist.
  { unfold Googlecode.get_download_list. rewrite bind_run.
    unfold try_except, Os.urlopen_read.
    destruct (urlopen_answer env (trace w) _) as [text | |] eqn:Hanswer;
      [by destruct (Hfail text) | |]; reflexivity. }
  split; [exact Hlist |].
  intros user_name password except_list.
  unfold Googlecode.remove_featured_labels.
  by rewrite bind_run, fmap_run, Hlist.
Qed.

(** Lines 87 to 104: an [HTTPError] on the page of details gives a record
    without checksum and date; any other [URLError] is not caught and
    leaves [get_file_details] as it is. *)
Theorem file_details_on_errors (project name : string) (w : World) :
  (urlopen_answer env
     (trace w ++ [EvPrint [Txt "Checking SHA1 at ";
                           Repr (VStr ("http://code.google.com/p/" +:+ project
                                         +:+ "/downloads/detail?name=" +:+ name))]])
     ("http://code.google.com/p/" +:+ project +:+ "/downloads/detail?name=" +:+ name)
   = HttpFails →
   (Googlecode.get_file_details env project name w).1
   = Ok {| Googlecode.d_project_name := project; Googlecode.d_fname := name;
           Googlecode.sha1 := None; Googlecode.date := None |})
  ∧ (urlopen_answer env
       (trace w ++ [EvPrint [Txt "Checking SHA1 at ";
                             Repr (VStr ("http://code.google.com/p/" +:+ project
                                           +:+ "/downloads/detail?name=" +:+ name))]])
       ("http://code.google.com/p/" +:+ project +:+ "/downloads/detail?name=" +:+ name)
     = UrlFails →
     (Googlecode.get_file_details env project name w).1 = Raise URLError).
Proof.
  split; intros Hanswer; unfold Googlecode.get_file_details, print;
    rewrite bind_run, emit_run, bind_run; unfold try_except, Os.urlopen_read;
    cbn [trace record]; rewrite Hanswer; reflexivity.
Qed.

(** Lines 88 to 93: when the page of details is fetched and [read()] gives
    [bytes], as it does with [urllib], the first search hands them to a
    pattern that is a [str]: [get_file_details] ends with [TypeError] and
    returns no record. *)
Theorem file_details_of_bytes (project name body : string) (w : World) :
  urlopen_gives_str env = false →
  urlopen_answer env
     (trace w ++ [EvPrint [Txt "Checking SHA1 at ";
                           Repr (VStr ("http://code.google.com/p/" +:+ project
                                         +:+ "/downloads/detail?name=" +:+ name))]])
     ("http://code.google.com/p/" +:+ project +:+ "/downloads/detail?name=" +:+ name)
   = Body body →
  Googlecode.get_file_details env project name w
  = (Raise TypeError,
     record (EvUrlopen ("http://code.google.com/p/" +:+ project
                          +:+ "/downloads/detail?name=" +:+ name))
       (record (EvPrint [Txt "Checking SHA1 at ";
                         Repr (VStr ("http://code.google.com/p/" +:+ project
                                       +:+ "/downloads/detail?name=" +:+ name))]) w)).
Proof.
  intros Hbytes Hanswer.
  unfold Googlecode.get_file_details, print.
  rewrite bind_run, emit_run, bind_run. unfold try_except, Os.urlopen_read.
  cbn [trace record]. by rewrite Hanswer, Hbytes.
Qed.

End NetworkFailures.

(** ** Downloads *)
Section Downloads.
Variable env : Env.


End Downloads.

(** ** Uploads, once more *)
Section UploadsAgain.
Variable env : Env.

(** Lines 197 to 213: an entry that carries the Featured label and is not
    excepted is uploaded again, with its summary, under [dist_dir/fname],
    and with its labels less one [Featured]; the step returns normally
    whatever the upload call answers.  In particular [list.remove] cannot
    fail on an entry that [_filter_featured_downloads] has kept. *)
Theorem relabel_item_uploads (lst : list Googlecode.download)
    (item : Googlecode.download) (dist_dir user_name password : string)
    (except_list : option (list string)) (w : World) :
  item ∈ Googlecode._filter_featured_downloads lst →
  Googlecode.excepted except_list item = false →
  ∃ l, Googlecode.labels item ≡ₚ "Featured" :: l
       ∧ Googlecode.relabel_item env dist_dir user_name password except_list item w
         = (Ok tt,
            record (EvUpload
                      {| up_file := dist_dir +:+ "/" +:+ Googlecode.str (Googlecode.fname item);
                         up_project_name := Googlecode.project_name item;
                         up_user_name := user_name; up_password := password;
                         up_summary := Googlecode.summary item; up_labels := l |})
              (record (EvPrint [Txt "Updating "; Str (of_opt (Googlecode.fname item))])
                 (record (EvPrint [Txt ("Removing " +:+ Googlecode.quoted "Featured"
                                          +:+ " from ");
                                   Repr (of_opt (Googlecode.fname item))]) w))).
Proof.
  intros Hin Hex.
  apply list_elem_of_filter in Hin as [Hfeatured _].
  assert (∀ labels, "Featured" ∈ labels →
            ∃ l, Googlecode.list_remove "Featured" labels = Some l
                 ∧ labels ≡ₚ "Featured" :: l) as Hremove.
  { induction labels as [|y labels IH]; intros Hy; [by apply elem_of_nil in Hy |].
    cbn [Googlecode.list_remove].
    destruct (String.eqb "Featured" y) eqn:E.
    - apply String.eqb_eq in E as <-. by exists labels.
    - apply String.eqb_neq in E.
      apply elem_of_cons in Hy as [Hy | Hy]; [done |].
      destruct (IH Hy) as (l & -> & Hperm). exists (y :: l). split; [done |].
      rewrite Hperm. apply Permutation_swap. }
  destruct (Hremove _ Hfeatured) as (l & Hl & Hperm).
  exists l. split; [done |].
  unfold Googlecode.relabel_item. rewrite Hex, Hl.
  unfold Googlecode.update_file, print.
  by rewrite bind_run, emit_run, bind_run, emit_run, bind_run.
Qed.

End UploadsAgain.

(** ** What the reconciler may change *)
Section ReconcilerFrame.
Variable env : Env.

Lemma safe_search_in_touches (allowed : string → Prop) (regex : string)
    (haystack : data) (fl : Re.flags) :
  touches_only allowed (Googlecode._safe_search_in regex haystack fl).
Proof. destruct haystack; [apply touches_ret | apply touches_raise]. Qed.

Lemma finditer_entries_touches (allowed : string → Prop) (text : data) :
  touches_only allowed (Googlecode.finditer_entries text).
Proof. destruct text; [apply touches_ret | apply touches_raise]. Qed.

Lemma get_file_details_touches (allowed : string → Prop) (project name : string) :
  touches_only allowed (Googlecode.get_file_details env project name).
Proof.
  unfold Googlecode.get_file_details.
  touching_by ltac:(apply safe_search_in_touches).
Qed.

Lemma download_file_touches (allowed : string → Prop)
    (project name dist_dir : string) :
  touches_only allowed (Googlecode.download_file env project name dist_dir).
Proof. unfold Googlecode.download_file. touching. Qed.

Lemma maybe_download_file_touches (allowed : string → Prop)
    (project name dist_dir : string) :
  touches_only allowed (Googlecode.maybe_download_file env project name dist_dir).
Proof.
  unfold Googlecode.maybe_download_file.
  touching_by ltac:(first [ apply get_file_details_touches
                          | apply download_file_touches ]).
Qed.

(** No operation of the reconciler changes a file other than the
    artifacts it downloads: [download_file] and [maybe_download_file]
    leave every path but [dist_dir/fname] alone, the two uploading
    functions change no file at all, and the re-labeling pass changes
    nothing outside of [dist]. *)
Theorem reconciler_touches :
  (∀ project name dist_dir,
     touches_only (λ p, p = artifact env dist_dir name)
       (Googlecode.download_file env project name dist_dir))
  ∧ (∀ project name dist_dir,
       touches_only (λ p, p = artifact env dist_dir name)
         (Googlecode.maybe_download_file env project name dist_dir))
  ∧ (∀ project dist_dir name summary labels username password,
       touches_only (λ _, False)
         (Googlecode.maybe_upload_file env project dist_dir name summary labels
            username password))
  ∧ (∀ info dist_dir username password,
       touches_only (λ _, False)
         (Googlecode.update_file env info dist_dir username password))
  ∧ (∀ project user_name password except_list,
       touches_only (λ p, ∃ name, p = artifact env "dist" name)
         (Googlecode.remove_featured_labels env project user_name password
            except_list)).
Proof.
  split; [intros; apply download_file_touches |].
  split; [intros; apply maybe_download_file_touches |].
  split.
  { intros. unfold Googlecode.maybe_upload_file.
    touching_by ltac:(apply get_file_details_touches). }
  split.
  { intros. unfold Googlecode.update_file. touching. }
  intros. unfold Googlecode.remove_featured_labels, Googlecode.get_download_list.
  apply touches_bind;
    [touching_by ltac:(apply finditer_entries_touches) | intros lst].
  apply touches_bind; [| intros _]; apply touches_for_each; intros item _.
  - unfold Googlecode.fetch_item.
    touching_by ltac:(first [ apply download_file_touches
                            | apply maybe_download_file_touches ]).
  - unfold Googlecode.relabel_item, Googlecode.update_file. touching.
Qed.

End ReconcilerFrame.

(** ** The list of requirements *)
Section Requirements.
Variable env : Env.

Lemma longest_spec (depends : list string) (start : nat) :
  let longest :=
    foldl (λ longest req, if (longest <? String.length req)%nat
                          then String.length req else longest) start depends in
  (start ≤ longest)%nat
  ∧ (∀ req, req ∈ depends → (String.length req ≤ longest)%nat)
  ∧ (longest = start ∨ ∃ req, req ∈ depends ∧ longest = String.length req).
Proof.
  revert start. induction depends as [|r depends IH]; intros start; cbn zeta;
    cbn [foldl].
  - split; [lia |]. split; [| by left]. intros req Hin. by apply elem_of_nil in Hin.
  - destruct (IH (if (start <? String.length r)%nat then String.length r else start))
      as (Hle & Hall & Hsome).
    destruct (Nat.ltb_spec start (String.length r)) as [Hlt | Hge].
    + split; [lia |]. split.
      * intros req [-> | Hin]%elem_of_cons; [lia | by apply Hall].
      * right. destruct Hsome as [-> | (req & Hin & ->)].
        -- exists r. split; [apply list_elem_of_here | done].
        -- exists req. split; [by apply list_elem_of_further | done].
    + split; [lia |]. split.
      * intros req [-> | Hin]%elem_of_cons; [lia | by apply Hall].
      * destruct Hsome as [-> | (req & Hin & ->)]; [by left |].
        right. exists req. split; [by apply list_elem_of_further | done].
Qed.

(** Lines 95 to 107: the summaries of the packages that [apt] knows start
    in one column, the one the longest requirement sets: the line of a
    known requirement is the name, blanks up to the length of the longest
    name of the list, and the summary; a home page that is not empty has a
    line of its own. *)
Theorem fill_depends_aligned (depends : list string) (req summary homepage : string) :
  req ∈ depends →
  apt_cache env req = Some (summary, homepage) →
  ∃ n,
    ("* " +:+ (req +:+ Py.times " " n) +:+ " - " +:+ summary)
      ∈ Documents._fill_depends env depends
    ∧ (∀ other, other ∈ depends → (String.length other ≤ String.length req + n)%nat)
    ∧ (∃ other, other ∈ depends ∧ String.length other = (String.length req + n)%nat)
    ∧ (homepage ≠ EmptyString →
       ("  " +:+ (" " +:+ Py.times " " (String.length req + n - 1))
          +:+ "   (" +:+ homepage +:+ ")")
         ∈ Documents._fill_depends env depends).
Proof.
  intros Hin Hapt. unfold Documents._fill_depends.
  destruct (longest_spec depends O) as (_ & Hall & Hsome). cbn zeta in Hall, Hsome.
  set (longest := foldl _ O depends) in *.
  exists (longest - String.length req)%nat.
  pose proof (Hall req Hin) as Hreq.
  replace (String.length req + (longest - String.length req))%nat with longest by lia.
  split.
  { apply list_elem_of_bind. exists req. split; [| done].
    rewrite Hapt. apply list_elem_of_here. }
  split; [done |]. split.
  { destruct Hsome as [Hzero | (other & Hother & Heq)].
    - exists req. split; [done | lia].
    - exists other. by split. }
  intros Hhome. apply list_elem_of_bind. exists req. split; [| done].
  rewrite Hapt. apply list_elem_of_further.
  apply String.eqb_neq in Hhome. cbn [truthy]. rewrite Hhome. cbn [negb].
  apply list_elem_of_here.
Qed.

End Requirements.

(** ** Uploads that succeed, licenses that cannot be fetched *)
Section MoreRuns.
Variable env : Env.

(** Lines 143 to 164: when the service knows no checksum of the file, or
    another one than the local file has, the file is uploaded with the
    summary and the labels given; when the upload call answers with a
    URL, [maybe_upload_file] returns, having printed why it uploads. *)
Theorem maybe_upload_file_uploads (project dist_dir name : string)
    (summary : option string) (labels : list string) (username password : string)
    (w w1 : World) (d : Googlecode.details) (status : Z) (reason url : string) :
  Googlecode.get_file_details env project name w = (Ok d, w1) →
  (truthy (of_opt (Googlecode.sha1 d)) = false
   ∨ ∃ data, files w1 !! artifact env dist_dir name = Some data
             ∧ Some (sha1_hexdigest env data) ≠ Googlecode.sha1 d) →
  upload_answer env
    (trace w1 ++
       [EvPrint [Txt (if truthy (of_opt (Googlecode.sha1 d))
                      then "SHA1 checksums don't match, uploading "
                      else "File not there, uploading ");
                 Repr (VStr name); Txt "."]])
    {| up_file := Path.join dist_dir name; up_project_name := project;
       up_user_name := username; up_password := password;
       up_summary := summary; up_labels := labels |}
  = (status, reason, Some url) →
  url ≠ EmptyString →
  Googlecode.maybe_upload_file env project dist_dir name summary labels
    username password w
  = (Ok tt,
     record (EvUpload {| up_file := Path.join dist_dir name; up_project_name := project;
                         up_user_name := username; up_password := password;
                         up_summary := summary; up_labels := labels |})
       (record (EvPrint [Txt (if truthy (of_opt (Googlecode.sha1 d))
                              then "SHA1 checksums don't match, uploading "
                              else "File not there, uploading ");
                         Repr (VStr name); Txt "."]) w1)).
Proof.
  intros Hd Hneeds Hup Hurl. apply String.eqb_neq in Hurl.
  unfold Googlecode.maybe_upload_file. rewrite bind_run, Hd.
  destruct (truthy (of_opt (Googlecode.sha1 d))) eqn:Hsha.
  - destruct Hneeds as [? | (data & Hfile & Hdiff)]; [done |].
    unfold artifact in Hfile.
    rewrite bind_run, bind_run, (read_run env _ _ _ Hfile), ret_run.
    rewrite bool_decide_eq_false_2 by done. cbn [negb orb].
    rewrite bind_run. unfold print at 1. rewrite emit_run.
    rewrite bind_run. unfold Os.upload. cbn [record trace]. rewrite Hup.
    cbn [of_opt truthy]. by rewrite Hurl.
  - rewrite bind_run, ret_run. cbn [negb orb].
    rewrite bind_run. unfold print at 1. rewrite emit_run.
    rewrite bind_run. unfold Os.upload. cbn [record trace]. rewrite Hup.
    cbn [of_opt truthy]. by rewrite Hurl.
Qed.

(** Lines 213 to 214: the text of a license that comes from the network
    is fetched with no handler around the call: when the site does not
    answer, [out_license] ends with the exception of [urlopen], and no
    file has been written and no directory made. *)
Theorem license_download_fails (setup : Documents.Setup)
    (source y_regex name_regex : string) (w : World) :
  Documents.to_fetch (Documents.license setup) = Some (source, y_regex, name_regex) →
  Py.startswith "http" source = true →
  (∀ history text, urlopen_answer env history source ≠ Body text) →
  ∃ e w', Documents.out_license env setup w = (Raise e, w')
          ∧ is_URLError e = true
          ∧ files w' = files w ∧ dirs w' = dirs w.
Proof.
  intros Hrule Hhttp Hfail.
  unfold Documents.out_license. rewrite Hrule. unfold Documents.write_license.
  rewrite bind_run, find_license_run, bind_run.
  destruct (negb (truthy (VStr (license_found env w))));
    unfold LOG_info; rewrite bind_run, emit_run, ret_run, bind_run;
    unfold Documents.license_text; rewrite Hhttp; unfold Os.urlopen_read;
    (destruct (urlopen_answer env _ source) as [text | |] eqn:Hanswer;
     [by destruct (Hfail _ text Hanswer) | by eexists _, _ | by eexists _, _]).
Qed.

End MoreRuns.

(** ** The reconciler with [urllib] *)
Section WithUrllib.
Variable env : Env.
Hypothesis reads_bytes : urlopen_gives_str env = false.

(** Lines 123 to 135 with the [bytes] that [urllib] reads: whatever the
    service answers, [maybe_download_file] ends with an exception before it
    compares a checksum, [TypeError] when the page of details is there,
    [UnboundLocalError] after an HTTP error, and the error of the network
    itself otherwise; nothing is downloaded. *)
Theorem maybe_download_file_with_urllib (project name dist_dir : string) (w : World) :
  Googlecode.maybe_download_file env project name dist_dir w
  = (Raise
       match urlopen_answer env
               (trace w ++ [EvPrint [Txt "Checking SHA1 at ";
                                     Repr (VStr ("http://code.google.com/p/" +:+ project
                                                   +:+ "/downloads/detail?name="
                                                   +:+ name))]])
               ("http://code.google.com/p/" +:+ project
                  +:+ "/downloads/detail?name=" +:+ name) with
       | Body _ => TypeError
       | HttpFails => UnboundLocalError "hex_digest"
       | UrlFails => URLError
       end,
     record (EvUrlopen ("http://code.google.com/p/" +:+ project
                          +:+ "/downloads/detail?name=" +:+ name))
       (record (EvPrint [Txt "Checking SHA1 at ";
                         Repr (VStr ("http://code.google.com/p/" +:+ project
                                       +:+ "/downloads/detail?name=" +:+ name))]) w)).
Proof.
  unfold Googlecode.maybe_download_file, Googlecode.get_file_details, print.
  rewrite bind_run, bind_run, emit_run, bind_run.
  unfold try_except, Os.urlopen_read. cbn [trace record]. rewrite reads_bytes.
  by destruct (urlopen_answer env _ _).
Qed.

(** Lines 195 to 213 with the [bytes] that [urllib] reads: the re-labeling
    pass fetches the feed and does nothing else.  When the feed is there it
    ends with [TypeError]; when it is not, there is no entry to work on.
    No file is fetched and nothing is uploaded. *)
Theorem remove_featured_labels_with_urllib (project user_name password : string)
    (except_list : option (list string)) (w : World) :
  Googlecode.remove_featured_labels env project user_name password except_list w
  = (match urlopen_answer env (trace w)
             ("http://code.google.com/feeds/p/" +:+ project +:+ "/downloads/basic") with
     | Body _ => Raise TypeError
     | _ => Ok tt
     end,
     record (EvUrlopen ("http://code.google.com/feeds/p/" +:+ project
                          +:+ "/downloads/basic")) w).
Proof.
  unfold Googlecode.remove_featured_labels, Googlecode.get_download_list.
  rewrite bind_run, fmap_run, bind_run.
  unfold try_except, Os.urlopen_read. rewrite reads_bytes.
  by destruct (urlopen_answer env _ _).
Qed.

End WithUrllib.

(** ** The cases at work *)




(** The feed of a project the service does not know. *)
Lemma feed_unavailable_witness :
  Googlecode.get_download_list Scenario.env0 "other" Scenario.w_kept
    = (Ok [], record (EvUrlopen "http://code.google.com/feeds/p/other/downloads/basic")
                Scenario.w_kept)
  ∧ ∀ user_name password except_list,
      Googlecode.remove_featured_labels Scenario.env0 "other" user_name password
        except_list Scenario.w_kept
      = (Ok tt, record (EvUrlopen "http://code.google.com/feeds/p/other/downloads/basic")
                  Scenario.w_kept).
Proof.
  apply (feed_unavailable Scenario.env0 "other" Scenario.w_kept).
  intros text. by vm_compute.
Defined.

(** The page of [a.zip] read with [urllib]. *)
Lemma file_details_of_bytes_witness :
  Googlecode.get_file_details Cases.env_urllib "pybdist" "a.zip" Scenario.w_kept
  = (Raise TypeError,
     record (EvUrlopen (Scenario.detail_url "a.zip"))
       (record (EvPrint [Txt "Checking SHA1 at ";
                         Repr (VStr (Scenario.detail_url "a.zip"))])
          Scenario.w_kept)).
Proof.
  apply (file_details_of_bytes Cases.env_urllib "pybdist" "a.zip"
           (Scenario.page "abc123" "42") Scenario.w_kept); reflexivity.
Defined.


(** A file the service does not have, and an upload that is refused. *)
Lemma maybe_upload_file_exits_witness :
  ∃ w', Googlecode.maybe_upload_file Scenario.env0 "pybdist" "dist" "c.zip"
          (Some "new") ["Featured"] "me" "secret" Scenario.w_kept = (Exit (-1), w').
Proof.
  destruct (maybe_upload_file_exits Scenario.env0 "pybdist" "dist" "c.zip"
              (Some "new") ["Featured"] "me" "secret" Scenario.w_kept _ _
              403 "Forbidden" None eq_refl eq_refl eq_refl eq_refl)
    as (w' & Hrun & _).
  by exists w'.
Defined.

(** The same file, and an upload that is accepted. *)
Lemma maybe_upload_file_uploads_witness :
  (Googlecode.maybe_upload_file Cases.env_open "pybdist" "dist" "c.zip"
     (Some "new") ["Featured"] "me" "secret" Scenario.w_kept).1 = Ok tt.
Proof.
  rewrite (maybe_upload_file_uploads Cases.env_open "pybdist" "dist" "c.zip"
             (Some "new") ["Featured"] "me" "secret" Scenario.w_kept _ _
             201 "Created" "http://pybdist.googlecode.com/files/dist/c.zip"
             eq_refl (or_introl eq_refl) eq_refl).
  - reflexivity.
  - compute_done.
Defined.

(** An entry that carries the label twice loses it once. *)
Lemma relabel_item_uploads_witness :
  ∃ l, Googlecode.labels Cases.item_twice ≡ₚ "Featured" :: l
       ∧ (Googlecode.relabel_item Scenario.env0 "dist" "me" "secret" None
            Cases.item_twice Scenario.w_kept).1 = Ok tt.
Proof.
  destruct (relabel_item_uploads Scenario.env0 [Cases.item_twice] Cases.item_twice
              "dist" "me" "secret" None Scenario.w_kept)
    as (l & Hperm & Hrun).
  - replace (Googlecode._filter_featured_downloads [Cases.item_twice])
      with [Cases.item_twice] by (by vm_compute).
    apply list_elem_of_here.
  - reflexivity.
  - exists l. split; [exact Hperm |]. by rewrite Hrun.
Defined.

(** Three requirements, one of them known to [apt]. *)
Lemma fill_depends_aligned_witness :
  ∃ n,
    ("* " +:+ ("gtk" +:+ Py.times " " n) +:+ " - " +:+ "GTK")
      ∈ Documents._fill_depends
          (Cases.knowing (λ _, Some ("GTK", "http://gtk.org")) Scenario.env0)
          ["python-apt"; "gtk"]
    ∧ (∀ other, other ∈ ["python-apt"; "gtk"] → (String.length other ≤ 3 + n)%nat)
    ∧ (∃ other, other ∈ ["python-apt"; "gtk"] ∧ String.length other = (3 + n)%nat)
    ∧ ("http://gtk.org" ≠ EmptyString →
       ("  " +:+ (" " +:+ Py.times " " (3 + n - 1)) +:+ "   (" +:+ "http://gtk.org" +:+ ")")
         ∈ Documents._fill_depends
             (Cases.knowing (λ _, Some ("GTK", "http://gtk.org")) Scenario.env0)
             ["python-apt"; "gtk"]).
Proof.
  apply (fill_depends_aligned
           (Cases.knowing (λ _, Some ("GTK", "http://gtk.org")) Scenario.env0)
           ["python-apt"; "gtk"] "gtk" "GTK" "http://gtk.org").
  - apply list_elem_of_further, list_elem_of_here.
  - reflexivity.
Defined.

(** The GPL without a network. *)
Lemma license_download_fails_witness :
  ∃ e w', Documents.out_license Cases.env_offline Scenario.setup_gpl Scenario.w0
          = (Raise e, w')
          ∧ is_URLError e = true
          ∧ files w' = files Scenario.w0 ∧ dirs w' = dirs Scenario.w0.
Proof.
  apply (license_download_fails Cases.env_offline Scenario.setup_gpl
           "http://www.gnu.org/licenses/gpl-3.0.txt" "END OF TERMS.+" EmptyString
           Scenario.w0).
  - reflexivity.
  - reflexivity.
  - intros history text. discriminate.
Defined.

(** The stale [a.zip] of [w_stale], with [urllib]. *)
Lemma maybe_download_file_with_urllib_witness :
  Googlecode.maybe_download_file Cases.env_urllib "pybdist" "a.zip" "dist"
    Scenario.w_stale
  = (Raise TypeError,
     record (EvUrlopen (Scenario.detail_url "a.zip"))
       (record (EvPrint [Txt "Checking SHA1 at ";
                         Repr (VStr (Scenario.detail_url "a.zip"))])
          Scenario.w_stale)).
Proof.
  apply (maybe_download_file_with_urllib Cases.env_urllib eq_refl
           "pybdist" "a.zip" "dist" Scenario.w_stale).
Defined.

(** The two Featured files of the service, with [urllib]. *)
Lemma remove_featured_labels_with_urllib_witness :
  Googlecode.remove_featured_labels Cases.env_urllib "pybdist" "scott" "secret" None
    Scenario.w_stale
  = (Raise TypeError, record (EvUrlopen Scenario.feed_url) Scenario.w_stale).
Proof.
  apply (remove_featured_labels_with_urllib Cases.env_urllib eq_refl
           "pybdist" "scott" "secret" None Scenario.w_stale).
Defined.
